(** * UrbanHub cart and coupon pricing engine

    A shallow embedding of the cart model ([src/models/cart.model.js]), the
    coupon model ([src/models/coupon.model.js]) and the cart controller, with
    the properties the specification states about them.

    Modelling conventions.
    - Quantities, prices, percentages and amounts are whole numbers ([Z]):
      the specification takes INR amounts in whole currency units.  The
      schemas accept any number; nothing here speaks for fractional prices
      or quantities.  Timestamps are milliseconds since the epoch ([Z]).
    - An [ObjectId] is represented by the string its [toString()] gives, which
      is the only way the source compares ids.
    - A JavaScript property that can be [undefined] is an [option]; a number
      that can be [NaN] is a [Num].
    - [new Date()] is the parameter [now]: a request is served at one instant.
    - The methods of the models are embedded twice.  The first embedding is
      for documents whose [productId] holds the stored id, as when a method
      is called on a cart that was not populated.  The handlers of the cart
      controller work on the cart [getOrCreateCart] loads, in which
      [populate()] has put the product document, or [null], in the place of
      every stored line's [productId]; module [InMemory] embeds the methods
      for such documents, where [toString()] on a populated product is no
      id and [toString()] on [null] throws.
    - [save()] validates the document against the schema and rejects it when
      a validator fails.  A [NaN] in [finalTotal] stands for the assignment
      the document refuses to cast, which makes [save()] reject as well.
    - A handler is embedded from the point where [getOrCreateCart] has given
      it the stored cart of the request. *)

From Stdlib Require Import ZArith Lia Bool String List.
From stdpp Require Import base tactics option list strings pretty.
Import ListNotations.

Local Open Scope string_scope.
Local Open Scope list_scope.
Local Open Scope Z_scope.

(** ** Data model *)

Definition ObjectId := string.

Record Image := mkImage { url : option string; alt : option string }.

Record Attributes := mkAttributes {
  size : option string;
  potType : option string;
  color : option string;
  indoorOutdoor : option string }.

Record ProductSnapshot := mkSnapshot {
  title : string;
  sku : string;
  image : Image;
  attributes : Attributes }.

(** [cartItemSchema] *)
Record CartItem := mkItem {
  _id : ObjectId;
  productId : ObjectId;
  productSnapshot : ProductSnapshot;
  quantity : Z;
  priceAtAdd : Z;
  currency : string }.

(** [cartCouponSchema]; [discountAmount] is [None] when the property holds
    [undefined]. *)
Record CartCoupon := mkCartCoupon {
  code : string;
  discountType : string;
  discountValue : Z;
  discountAmount : option Z;
  applicableProducts : list ObjectId }.

(** The [finalTotal] path of a cart document: a number, or [NaN] once the
    method has assigned [NaN] to it.  The document refuses to cast [NaN]; it
    marks the path invalid, and [save()] rejects the document.  [NaN] is
    that mark: the number the path held before is not kept. *)
Inductive Num := NaN | Fin (z : Z).

(** [cartSchema] *)
Record Cart := mkCart {
  userId : option ObjectId;
  sessionId : option string;
  items : list CartItem;
  subtotal : Z;
  coupon : option CartCoupon;
  totalDiscount : option Z;
  finalTotal : Num;
  cartCurrency : string }.

(** The fields of a product document that the cart code reads. *)
Record Product := mkProduct {
  p_id : ObjectId;
  p_title : string;
  p_sku : string;
  p_images : list Image;
  p_attributes : Attributes;
  p_price : Z;
  p_stock : Z;
  p_isActive : bool }.

(** [couponSchema] *)
Record Coupon := mkCoupon {
  c_code : string;
  c_discountType : string;
  c_discountValue : Z;
  c_applicableProducts : list ObjectId;
  c_startDate : Z;
  c_endDate : Z;
  c_isActive : bool;
  c_usageCount : Z;
  c_maxUsage : option Z }.

(** What [calculateDiscount] returns: the number [0], or a result object. *)
Inductive DiscountResult :=
| DZero
| DObject (discountAmount' applicableSubtotal : Z) (applicableItems : list CartItem).

(** Reading [.discountAmount] off the result: a number has no such property. *)
Definition discountAmountOf (d : DiscountResult) : option Z :=
  match d with
  | DZero => None
  | DObject a _ _ => Some a
  end.

(** Field setters. *)
Definition setQuantity (q : Z) (it : CartItem) : CartItem :=
  mkItem (_id it) (productId it) (productSnapshot it) q (priceAtAdd it) (currency it).

Definition setPriceAtAdd (p : Z) (it : CartItem) : CartItem :=
  mkItem (_id it) (productId it) (productSnapshot it) (quantity it) p (currency it).

Definition setItems (l : list CartItem) (c : Cart) : Cart :=
  mkCart (userId c) (sessionId c) l (subtotal c) (coupon c) (totalDiscount c)
         (finalTotal c) (cartCurrency c).

Definition setCoupon (cp : option CartCoupon) (c : Cart) : Cart :=
  mkCart (userId c) (sessionId c) (items c) (subtotal c) cp (totalDiscount c)
         (finalTotal c) (cartCurrency c).

(** [new Cart({ userId })] / [new Cart({ sessionId })] with the schema defaults. *)
Definition newCart (u : option ObjectId) (s : option string) : Cart :=
  mkCart u s [] 0 None (Some 0) (Fin 0) "INR".

(** ** JavaScript helpers *)

(** [Array.prototype.findIndex]: the first index whose element satisfies [p],
    [-1] when there is none.  [i] is the index of the head of [l]. *)
Fixpoint findIndexFrom {A} (p : A -> bool) (l : list A) (i : Z) : Z :=
  match l with
  | [] => -1
  | x :: r => if p x then i else findIndexFrom p r (i + 1)
  end.

Definition findIndex {A} (p : A -> bool) (l : list A) : Z := findIndexFrom p l 0.

(** [a - b] where [b] may be [undefined]. *)
Definition jsSub (a : Z) (b : option Z) : Num :=
  match b with
  | Some d => Fin (a - d)
  | None => NaN
  end.

(** [Math.max(0, x)] *)
Definition mathMax0 (x : Num) : Num :=
  match x with
  | Fin z => Fin (Z.max 0 z)
  | NaN => NaN
  end.

(** [Math.round(p / 100)]: the nearest integer, a tie going up. *)
Definition mathRoundDiv100 (p : Z) : Z := (2 * p + 100) / 200.

(** ** Cart engine ([cartSchema.methods]) *)

Definition calculateSubtotal (c : Cart) : Cart :=
  mkCart (userId c) (sessionId c) (items c)
         (fold_left (fun total item => total + priceAtAdd item * quantity item) (items c) 0)
         (coupon c) (totalDiscount c) (finalTotal c) (cartCurrency c).

Definition calculateFinalTotal (c : Cart) : Cart :=
  let c1 := calculateSubtotal c in
  let td := match coupon c1 with
            | Some cp => discountAmount cp
            | None => Some 0
            end in
  mkCart (userId c1) (sessionId c1) (items c1) (subtotal c1) (coupon c1) td
         (mathMax0 (jsSub (subtotal c1) td)) (cartCurrency c1).

Definition addItem (productData : Product) (qty price : Z) (newId : ObjectId)
    (c : Cart) : Cart :=
  let existingItemIndex :=
    findIndex (fun item => String.eqb (productId item) (p_id productData)) (items c) in
  let items' :=
    if existingItemIndex >? -1 then
      alter (fun it => setQuantity (quantity it + qty) it) (Z.to_nat existingItemIndex) (items c)
    else
      items c ++ [mkItem newId (p_id productData)
                    (mkSnapshot (p_title productData) (p_sku productData)
                       (match p_images productData with
                        | img :: _ => img
                        | [] => mkImage None None
                        end)
                       (p_attributes productData))
                    qty price "INR"] in
  calculateFinalTotal (setItems items' c).

Definition removeItem (itemId : ObjectId) (c : Cart) : Cart :=
  let c1 := calculateFinalTotal
              (setItems (List.filter (fun item => negb (String.eqb (_id item) itemId)) (items c)) c) in
  match coupon c1, items c1 with
  | Some cp, _ :: _ =>
      let hasApplicableProducts :=
        existsb (fun item =>
                   existsb (fun pid => String.eqb pid (productId item)) (applicableProducts cp))
                (items c1) in
      if negb hasApplicableProducts then calculateFinalTotal (setCoupon None c1) else c1
  | _, [] => calculateFinalTotal (setCoupon None c1)
  | None, _ :: _ => c1
  end.

(** [this.items.id(itemId)]: the position of the first subdocument with that id. *)
Definition itemsId (itemId : ObjectId) (l : list CartItem) : Z :=
  findIndex (fun item => String.eqb (_id item) itemId) l.

Definition updateItemQuantity (itemId : ObjectId) (newQuantity : Z) (c : Cart) : Cart :=
  if newQuantity <=? 0 then removeItem itemId c
  else
    let i := itemsId itemId (items c) in
    if i >? -1 then
      calculateFinalTotal (setItems (alter (setQuantity newQuantity) (Z.to_nat i) (items c)) c)
    else c.

Definition clearCart (c : Cart) : Cart :=
  calculateFinalTotal (setCoupon None (setItems [] c)).

Definition applyCoupon (couponData : Coupon) (discountCalculation : DiscountResult)
    (c : Cart) : Cart :=
  calculateFinalTotal
    (setCoupon (Some (mkCartCoupon (c_code couponData) (c_discountType couponData)
                        (c_discountValue couponData) (discountAmountOf discountCalculation)
                        (c_applicableProducts couponData))) c).

Definition removeCoupon (c : Cart) : Cart :=
  calculateFinalTotal (setCoupon None c).

(** One turn of the [forEach] of [mergeWith]. *)
Definition mergeItem (l : list CartItem) (otherItem : CartItem) : list CartItem :=
  let existingItemIndex :=
    findIndex (fun item => String.eqb (productId item) (productId otherItem)) l in
  if existingItemIndex >? -1 then
    alter (fun it => setPriceAtAdd (priceAtAdd otherItem)
                       (setQuantity (quantity it + quantity otherItem) it))
          (Z.to_nat existingItemIndex) l
  else l ++ [otherItem].

(** [otherCart] is [None] for [null]/[undefined]; a cart document always has
    an [items] array. *)
Definition mergeWith (otherCart : option Cart) (c : Cart) : Cart :=
  match otherCart with
  | None => c
  | Some o =>
      calculateFinalTotal (setCoupon None (setItems (fold_left mergeItem (items o) (items c)) c))
  end.

(** ** Coupon model ([couponSchema.methods]) *)

(** [!this.maxUsage]: [null] and [0] are the falsy values a cap can take. *)
Definition notMaxUsage (m : option Z) : bool :=
  match m with
  | None => true
  | Some v => v =? 0
  end.

Definition isValid (cp : Coupon) (now : Z) : bool :=
  let isDateValid := (c_startDate cp <=? now) && (now <=? c_endDate cp) in
  let isUsageValid :=
    notMaxUsage (c_maxUsage cp)
    || match c_maxUsage cp with
       | Some m => c_usageCount cp <? m
       | None => false
       end in
  c_isActive cp && isDateValid && isUsageValid.

(** [applicableProductIds.includes(id.toString())] *)
Definition includes (ids : list ObjectId) (id : ObjectId) : bool :=
  existsb (fun x => String.eqb x id) ids.

Definition isApplicableToProducts (cp : Coupon) (productIds : list ObjectId) : bool :=
  existsb (fun pid => includes (c_applicableProducts cp) pid) productIds.

(** One turn of the [forEach] of [calculateDiscount]: the running
    [applicableSubtotal] and the [applicableItems] pushed so far. *)
Definition discountStep (applicable : list ObjectId)
    (acc : Z * list CartItem) (item : CartItem) : Z * list CartItem :=
  if includes applicable (productId item) then
    (fst acc + priceAtAdd item * quantity item, snd acc ++ [item])
  else acc.

Definition calculateDiscount (cp : Coupon) (now : Z) (cartItems : list CartItem)
    : DiscountResult :=
  if negb (isValid cp now) then DZero
  else
    let acc := fold_left (discountStep (c_applicableProducts cp)) cartItems (0, []) in
    if fst acc =? 0 then DZero
    else
      let discountAmount :=
        if String.eqb (c_discountType cp) "percentage"
        then mathRoundDiv100 (fst acc * c_discountValue cp)
        else 0 in
      DObject discountAmount (fst acc) (snd acc).

(** ** Cart controller *)

Record RemovedItem := mkRemoved { r_title : string; r_reason : string }.

Record DiscountInfo := mkDiscountInfo {
  d_code : string;
  d_discountAmount : Z;
  d_applicableItems : nat }.

(** What a handler throws into its [catch] block. *)
Inductive Thrown :=
| ErrorMessage (msg : string)
| TypeError
| ValidationError.

(** The JSON body a handler sends, with its HTTP status. *)
Inductive Response :=
| Failure (status : Z) (message : string) (maxAllowed : option Z) (error : option Thrown)
| Success (message : option string) (cart : Cart)
          (removedItems : option (list RemovedItem)) (discount : option DiscountInfo).

(** A handler's effect: its response, and the document it handed to
    [cart.save()], if it got that far. *)
Record Outcome := mkOutcome { response : Response; saved : option Cart }.

Definition reject (status : Z) (message : string) : Outcome :=
  mkOutcome (Failure status message None None) None.

(** [x === 0] for a value that may be [undefined]. *)
Definition strictEq0 (x : option Z) : bool :=
  match x with
  | Some v => v =? 0
  | None => false
  end.

Definition upperAscii (a : Ascii.ascii) : Ascii.ascii :=
  let n := Ascii.nat_of_ascii a in
  if ((97 <=? n) && (n <=? 122))%nat then Ascii.ascii_of_nat (n - 32) else a.

(** [String.prototype.toUpperCase], on ASCII. *)
Fixpoint toUpperCase (s : string) : string :=
  match s with
  | EmptyString => EmptyString
  | String a r => String (upperAscii a) (toUpperCase r)
  end.

Inductive StockValidation :=
| StockThrow (msg : string)
| StockInvalid (maxAllowed : Z) (message : string)
| StockValid.

Definition validateStock (product : Product) (requestedQuantity existingQuantity : Z)
    : StockValidation :=
  if negb (p_isActive product) then
    StockThrow (String.append "Product " (String.append (p_title product) " is not available"))
  else
    let totalQuantity := existingQuantity + requestedQuantity in
    if totalQuantity >? p_stock product then
      StockInvalid (Z.max 0 (p_stock product - existingQuantity))
        (String.concat ""
           ["Only "; pretty (p_stock product); " units available for "; p_title product;
            ". You already have "; pretty existingQuantity; " in cart."])
    else StockValid.

(** [x > 0] for a value that may be [undefined]. *)
Definition gt0 (x : option Z) : bool :=
  match x with
  | Some v => v >? 0
  | None => false
  end.

(** A string that passes [if (s)]: present and not empty. *)
Definition nonEmpty (s : option string) : option string :=
  match s with
  | Some v => if String.eqb v "" then None else Some v
  | None => None
  end.

(** A stored field equal to the queried value. *)
Definition fieldIs (field : option string) (v : string) : bool :=
  match field with
  | Some x => String.eqb x v
  | None => false
  end.

(** What [mergeCart] does: its response, the user cart it handed to
    [save()] and the guest cart it deleted. *)
Record MergeOutcome := mkMergeOutcome {
  m_response : Response;
  m_saved : option Cart;
  m_deleted : option Cart }.


(** ** Documents in memory *)

(** How the [productId] of a line stands in memory: the stored id; the
    product document [populate()] has put in its place; or [null], when
    [populate()] found no product of that id. *)
Inductive RefState := Unpopulated | PopulatedDoc | PopulatedNull.

(** A line of a cart in memory.  [line_item] keeps the stored fields, the
    stored product id among them. *)
Record Line := mkLine { line_item : CartItem; line_ref : RefState }.

(** A cart document in memory: its lines, and the other fields of the
    document ([items] of [header] is not read). *)
Record MemCart := mkMem { lines : list Line; header : Cart }.

(** The document as the store holds it. *)
Definition stored (m : MemCart) : Cart :=
  setItems (map line_item (lines m)) (header m).

(** A document that was not populated. *)
Definition unpopulated (c : Cart) : MemCart :=
  mkMem (map (fun it => mkLine it Unpopulated) (items c)) c.

(** A computation that may throw. *)
Inductive Exc (A : Type) : Type :=
| Done (a : A)
| Raised (e : Thrown).

Arguments Done {A} a.
Arguments Raised {A} e.

Definition bindE {A B : Type} (m : Exc A) (k : A -> Exc B) : Exc B :=
  match m with
  | Done a => k a
  | Raised e => Raised e
  end.

Notation "x <- m ;; k" := (bindE m (fun x => k))
  (at level 100, m at next level, right associativity).

(** [findIndex], [find], [some] and [forEach] with a callback that may
    throw: the elements are visited in order and a throw ends the visit. *)
Fixpoint findIndexFromE {A} (p : A -> Exc bool) (l : list A) (i : Z) : Exc Z :=
  match l with
  | [] => Done (-1)
  | x :: r => b <- p x ;; if b then Done i else findIndexFromE p r (i + 1)
  end.

Definition findIndexE {A} (p : A -> Exc bool) (l : list A) : Exc Z :=
  findIndexFromE p l 0.

Fixpoint findE {A} (p : A -> Exc bool) (l : list A) : Exc (option A) :=
  match l with
  | [] => Done None
  | x :: r => b <- p x ;; if b then Done (Some x) else findE p r
  end.

Fixpoint someE {A} (p : A -> Exc bool) (l : list A) : Exc bool :=
  match l with
  | [] => Done false
  | x :: r => b <- p x ;; if b then Done true else someE p r
  end.

Fixpoint foldE {A B} (f : B -> A -> Exc B) (l : list A) (acc : B) : Exc B :=
  match l with
  | [] => Done acc
  | x :: r => acc' <- f acc x ;; foldE f r acc'
  end.

(** [item.productId.toString() === id]: the string of a product document is
    no id, and [null] has no [toString]. *)
Definition refEquals (id : ObjectId) (l : Line) : Exc bool :=
  match line_ref l with
  | Unpopulated => Done (String.eqb (productId (line_item l)) id)
  | PopulatedDoc => Done false
  | PopulatedNull => Raised TypeError
  end.

(** [ids.includes(item.productId.toString())] *)
Definition refIncluded (ids : list ObjectId) (l : Line) : Exc bool :=
  match line_ref l with
  | Unpopulated => Done (includes ids (productId (line_item l)))
  | PopulatedDoc => Done false
  | PopulatedNull => Raised TypeError
  end.

Definition setLineQuantity (q : Z) (l : Line) : Line :=
  mkLine (setQuantity q (line_item l)) (line_ref l).

Definition setLinePriceAtAdd (p : Z) (l : Line) : Line :=
  mkLine (setPriceAtAdd p (line_item l)) (line_ref l).

(** The methods of the cart and coupon models, on documents in memory. *)
Module InMemory.

Definition calculateFinalTotal (m : MemCart) : MemCart :=
  mkMem (lines m) (calculateFinalTotal (stored m)).

Definition setCoupon (cp : option CartCoupon) (m : MemCart) : MemCart :=
  mkMem (lines m) (setCoupon cp (header m)).

Definition addItem (productData : Product) (qty price : Z) (newId : ObjectId)
    (m : MemCart) : Exc MemCart :=
  existingItemIndex <- findIndexE (refEquals (p_id productData)) (lines m) ;;
  let lines' :=
    if existingItemIndex >? -1 then
      alter (fun l => setLineQuantity (quantity (line_item l) + qty) l)
            (Z.to_nat existingItemIndex) (lines m)
    else
      lines m ++ [mkLine
                    (mkItem newId (p_id productData)
                       (mkSnapshot (p_title productData) (p_sku productData)
                          (match p_images productData with
                           | img :: _ => img
                           | [] => mkImage None None
                           end)
                          (p_attributes productData))
                       qty price "INR")
                    Unpopulated] in
  Done (calculateFinalTotal (mkMem lines' (header m))).

Definition removeItem (itemId : ObjectId) (m : MemCart) : Exc MemCart :=
  let m1 := calculateFinalTotal
              (mkMem (List.filter (fun l => negb (String.eqb (_id (line_item l)) itemId))
                                  (lines m))
                     (header m)) in
  match coupon (header m1), lines m1 with
  | Some cp, _ :: _ =>
      hasApplicableProducts <-
        someE (fun l => someE (fun pid => refEquals pid l) (applicableProducts cp))
              (lines m1) ;;
      if negb hasApplicableProducts then Done (calculateFinalTotal (setCoupon None m1))
      else Done m1
  | _, [] => Done (calculateFinalTotal (setCoupon None m1))
  | None, _ :: _ => Done m1
  end.

Definition updateItemQuantity (itemId : ObjectId) (newQuantity : Z) (m : MemCart)
    : Exc MemCart :=
  if newQuantity <=? 0 then removeItem itemId m
  else
    let i := findIndex (fun l => String.eqb (_id (line_item l)) itemId) (lines m) in
    if i >? -1 then
      Done (calculateFinalTotal
              (mkMem (alter (setLineQuantity newQuantity) (Z.to_nat i) (lines m)) (header m)))
    else Done m.

Definition applyCoupon (couponData : Coupon) (discountCalculation : DiscountResult)
    (m : MemCart) : MemCart :=
  mkMem (lines m) (applyCoupon couponData discountCalculation (stored m)).

Definition removeCoupon (m : MemCart) : MemCart :=
  mkMem (lines m) (removeCoupon (stored m)).

(** One turn of the [forEach] of [mergeWith]; the merged-in item comes from
    a cart that was not populated. *)
Definition mergeItem (ls : list Line) (otherItem : CartItem) : Exc (list Line) :=
  existingItemIndex <- findIndexE (refEquals (productId otherItem)) ls ;;
  Done (if existingItemIndex >? -1 then
          alter (fun l => setLinePriceAtAdd (priceAtAdd otherItem)
                            (setLineQuantity (quantity (line_item l) + quantity otherItem) l))
                (Z.to_nat existingItemIndex) ls
        else ls ++ [mkLine otherItem Unpopulated]).

Definition mergeWith (otherCart : Cart) (m : MemCart) : Exc MemCart :=
  lines' <- foldE mergeItem (items otherCart) (lines m) ;;
  Done (calculateFinalTotal (setCoupon None (mkMem lines' (header m)))).

(** [coupon.isApplicableToProducts(cart.items.map((item) => item.productId))] *)
Definition isApplicableToProducts (cp : Coupon) (ls : list Line) : Exc bool :=
  someE (refIncluded (c_applicableProducts cp)) ls.

Definition discountStep (applicable : list ObjectId)
    (acc : Z * list CartItem) (l : Line) : Exc (Z * list CartItem) :=
  applies <- refIncluded applicable l ;;
  Done (if applies then
          (fst acc + priceAtAdd (line_item l) * quantity (line_item l),
           snd acc ++ [line_item l])
        else acc).

Definition calculateDiscount (cp : Coupon) (now : Z) (ls : list Line)
    : Exc DiscountResult :=
  if negb (isValid cp now) then Done DZero
  else
    acc <- foldE (discountStep (c_applicableProducts cp)) ls (0, []) ;;
    if fst acc =? 0 then Done DZero
    else
      let discountAmount :=
        if String.eqb (c_discountType cp) "percentage"
        then mathRoundDiv100 (fst acc * c_discountValue cp)
        else 0 in
      Done (DObject discountAmount (fst acc) (snd acc)).

End InMemory.

(** ** Saving *)

(** The validators of [cartItemSchema], [cartCouponSchema] and [cartSchema]:
    required strings are not empty, required numbers are there, and the
    minima hold. *)
Definition validItem (it : CartItem) : bool :=
  negb (String.eqb (title (productSnapshot it)) "")
  && negb (String.eqb (sku (productSnapshot it)) "")
  && (1 <=? quantity it) && (0 <=? priceAtAdd it).

Definition validCoupon (cp : CartCoupon) : bool :=
  negb (String.eqb (code cp) "")
  && negb (String.eqb (discountType cp) "")
  && match discountAmount cp with
     | Some a => 0 <=? a
     | None => false
     end.

Definition validates (c : Cart) : bool :=
  forallb validItem (items c)
  && (0 <=? subtotal c)
  && match coupon c with
     | Some cp => validCoupon cp
     | None => true
     end
  && match totalDiscount c with
     | Some d => 0 <=? d
     | None => true
     end
  && match finalTotal c with
     | Fin z => 0 <=? z
     | NaN => false
     end.

(** [await cart.save()]: the stored document, or the validation error. *)
Definition save (m : MemCart) : Exc Cart :=
  if validates (stored m) then Done (stored m) else Raised ValidationError.

(** The [try] ... [catch] of a handler: whatever is thrown becomes the 500
    answer with the handler's message, and nothing is saved. *)
Definition attempt (failure : string) (e : Exc Outcome) : Outcome :=
  match e with
  | Done o => o
  | Raised err => mkOutcome (Failure 500 failure None (Some err)) None
  end.

Module CartController.
Section Handlers.

(** [mongoose.isValidObjectId] *)
Variable isValidObjectId : string -> bool.
(** The product collection and the coupon collection. *)
Variable products : list Product.
Variable coupons : list Coupon.
(** The instant the request is served. *)
Variable now : Z.

(** [Product.findById(id)] *)
Definition findById (id : ObjectId) : option Product :=
  List.find (fun p => String.eqb (p_id p) id) products.

(** [Coupon.findOne({ code })] *)
Definition findOne (code : string) : option Coupon :=
  List.find (fun cp => String.eqb (c_code cp) code) coupons.

(** [.populate({ path: "items.productId", ... })] on one line. *)
Definition populateLine (it : CartItem) : Line :=
  mkLine it (match findById (productId it) with
             | Some _ => PopulatedDoc
             | None => PopulatedNull
             end).

(** The cart as [getOrCreateCart] hands it to a handler. *)
Definition populate (cart : Cart) : MemCart :=
  mkMem (map populateLine (items cart)) cart.

(** [Product.findById(item.productId)]: a product document is cast to its
    id, and [null] finds nothing. *)
Definition findByRef (l : Line) : option Product :=
  match line_ref l with
  | PopulatedNull => None
  | _ => findById (productId (line_item l))
  end.

(** The coupon revalidation that closes [addToCart]. *)
Definition revalidateAfterAdd (pid : ObjectId) (m : MemCart) : Exc MemCart :=
  match coupon (header m) with
  | None => Done m
  | Some applied =>
      match findOne (code applied) with
      | None => Done (InMemory.removeCoupon m)
      | Some cp =>
          if negb (isValid cp now) || negb (isApplicableToProducts cp [pid])
          then Done (InMemory.removeCoupon m)
          else
            discountCalculation <- InMemory.calculateDiscount cp now (lines m) ;;
            Done (InMemory.applyCoupon cp discountCalculation m)
      end
  end.

(** [newId] is the id the document array gives a pushed item. *)
Definition addToCart (reqProductId : option string) (reqQuantity : option Z)
    (newId : ObjectId) (cart : Cart) : Outcome :=
  let qty := match reqQuantity with Some q => q | None => 1 end in
  match reqProductId with
  | None => reject 400 "Product ID is required"
  | Some pid =>
    if String.eqb pid "" then reject 400 "Product ID is required"
    else if negb (isValidObjectId pid) then reject 400 "Invalid product ID"
    else if qty <? 1 then reject 400 "Quantity must be at least 1"
    else
      match findById pid with
      | None => reject 404 "Product not found"
      | Some product =>
        attempt "Failed to add item to cart"
          (existingItem <- findE (refEquals pid) (lines (populate cart)) ;;
           let existingQuantity :=
             match existingItem with Some l => quantity (line_item l) | None => 0 end in
           match validateStock product qty existingQuantity with
           | StockThrow msg => Raised (ErrorMessage msg)
           | StockInvalid maxAllowed message =>
               Done (mkOutcome (Failure 400 message (Some maxAllowed) None) None)
           | StockValid =>
               cart1 <- InMemory.addItem product qty (p_price product) newId (populate cart) ;;
               cart2 <- revalidateAfterAdd pid cart1 ;;
               savedCart <- save cart2 ;;
               Done (mkOutcome
                       (Success (Some (match existingItem with
                                       | Some _ => "Cart item quantity updated"
                                       | None => "Item added to cart"
                                       end))
                                savedCart None None)
                       (Some savedCart))
           end)
      end
  end.

(** One turn of the loop of [getCart] over the items. *)
Definition getCartStep (acc : list Line * list RemovedItem) (l : Line)
    : list Line * list RemovedItem :=
  let '(validItems, removedItems) := acc in
  let item := line_item l in
  let unavailable :=
    (validItems,
     removedItems ++ [mkRemoved (title (productSnapshot item)) "Product no longer available"]) in
  match findByRef l with
  | None => unavailable
  | Some product =>
    if negb (p_isActive product) then unavailable
    else if quantity item >? p_stock product then
      if p_stock product >? 0 then
        (validItems ++ [setLineQuantity (p_stock product) l],
         removedItems ++
           [mkRemoved (title (productSnapshot item))
              (String.concat ""
                 ["Quantity reduced to "; pretty (p_stock product); " (available stock)"])])
      else
        (validItems,
         removedItems ++ [mkRemoved (title (productSnapshot item)) "Out of stock"])
    else (validItems ++ [l], removedItems)
  end.

(** The coupon revalidation of [getCart]. *)
Definition revalidateOnRead (m : MemCart) (removedItems : list RemovedItem)
    : Exc (MemCart * list RemovedItem) :=
  match coupon (header m), lines m with
  | Some applied, _ :: _ =>
      let invalid :=
        (InMemory.removeCoupon m,
         removedItems ++ [mkRemoved "Coupon" "Coupon expired or invalid"]) in
      match findOne (code applied) with
      | None => Done invalid
      | Some cp =>
          if negb (isValid cp now) then Done invalid
          else
            discountCalculation <- InMemory.calculateDiscount cp now (lines m) ;;
            if strictEq0 (discountAmountOf discountCalculation) then
              Done (InMemory.removeCoupon m,
                    removedItems ++ [mkRemoved "Coupon" "No applicable products in cart"])
            else Done (InMemory.applyCoupon cp discountCalculation m, removedItems)
      end
  | _, _ => Done (m, removedItems)
  end.

Definition getCart (cart : Cart) : Outcome :=
  attempt "Failed to fetch cart"
    (let '(validItems, removedItems) :=
       fold_left getCartStep (lines (populate cart)) ([], []) in
     revalidated <- revalidateOnRead (mkMem validItems (header (populate cart)))
                                     removedItems ;;
     let '(cart1, removedItems1) := revalidated in
     savedCart <- save (InMemory.calculateFinalTotal cart1) ;;
     Done (mkOutcome
             (Success None savedCart
                (match removedItems1 with [] => None | _ :: _ => Some removedItems1 end)
                None)
             (Some savedCart))).

Definition applyCoupon (reqCode : option string) (cart : Cart) : Outcome :=
  match reqCode with
  | None => reject 400 "Coupon code is required"
  | Some code =>
    if String.eqb code "" then reject 400 "Coupon code is required"
    else
      attempt "Failed to apply coupon"
        (match lines (populate cart) with
         | [] => Done (reject 400 "Cannot apply coupon to empty cart")
         | _ :: _ =>
           match findOne (toUpperCase code) with
           | None => Done (reject 404 "Invalid coupon code")
           | Some cp =>
             if negb (isValid cp now) then Done (reject 400 "Coupon is expired or inactive")
             else
               applicable <- InMemory.isApplicableToProducts cp (lines (populate cart)) ;;
               if negb applicable then
                 Done (reject 400 "Coupon is not applicable to any products in your cart")
               else
                 discountCalculation <-
                   InMemory.calculateDiscount cp now (lines (populate cart)) ;;
                 if strictEq0 (discountAmountOf discountCalculation) then
                   Done (reject 400 "Coupon cannot be applied to current cart items")
                 else
                   savedCart <- save (InMemory.applyCoupon cp discountCalculation
                                        (populate cart)) ;;
                   match discountCalculation with
                   | DObject amount _ applicableItems =>
                       Done (mkOutcome
                               (Success (Some "Coupon applied successfully") savedCart None
                                  (Some (mkDiscountInfo (c_code cp) amount
                                           (length applicableItems))))
                               (Some savedCart))
                   | DZero =>
                       (* [discountCalculation.applicableItems.length] on a number *)
                       Raised TypeError
                   end
           end
         end)
  end.

End Handlers.
End CartController.

Module CartHandlers.
Section Handlers.

(** [mongoose.isValidObjectId] *)
Variable isValidObjectId : string -> bool.
(** The product, coupon and cart collections. *)
Variable products : list Product.
Variable coupons : list Coupon.
Variable carts : list Cart.
(** The instant the request is served. *)
Variable now : Z.

(** [getOrCreateCart(userId, sessionId)], as the stored document it finds or
    the new document it makes; [None] when it throws for want of both.  The
    [populate()] of its two queries is [CartController.populate], which every
    handler applies to the cart it is given. *)
Definition getOrCreateCart (reqUserId : option ObjectId) (reqSessionId : option string)
    : option Cart :=
  match nonEmpty reqUserId with
  | Some u =>
      Some (match List.find (fun c => fieldIs (userId c) u) carts with
            | Some cart => cart
            | None => newCart (Some u) None
            end)
  | None =>
      match nonEmpty reqSessionId with
      | Some s =>
          Some (match List.find (fun c => fieldIs (sessionId c) s) carts with
                | Some cart => cart
                | None => newCart None (Some s)
                end)
      | None => None
      end
  end.

(** The coupon revalidation that closes [updateCartItem]. *)
Definition revalidateAfterUpdate (m : MemCart) : Exc MemCart :=
  match coupon (header m), lines m with
  | Some applied, _ :: _ =>
      match CartController.findOne coupons (code applied) with
      | None => Done (InMemory.removeCoupon m)
      | Some cp =>
          if isValid cp now then
            discountCalculation <- InMemory.calculateDiscount cp now (lines m) ;;
            if gt0 (discountAmountOf discountCalculation)
            then Done (InMemory.applyCoupon cp discountCalculation m)
            else Done (InMemory.removeCoupon m)
          else Done (InMemory.removeCoupon m)
      end
  | _, _ => Done m
  end.

Definition updateCartItem (itemId : string) (qty : Z) (cart : Cart) : Outcome :=
  if negb (isValidObjectId itemId) then reject 400 "Invalid item ID"
  else if qty <? 0 then reject 400 "Quantity cannot be negative"
  else
    let m := CartController.populate products cart in
    match List.find (fun l => String.eqb (_id (line_item l)) itemId) (lines m) with
    | None => reject 404 "Cart item not found"
    | Some line =>
      let finish (cart1 : MemCart) : Exc Outcome :=
        cart2 <- revalidateAfterUpdate cart1 ;;
        savedCart <- save cart2 ;;
        Done (mkOutcome
                (Success (Some (if qty =? 0 then "Item removed from cart"
                                else "Cart item updated"))
                         savedCart None None)
                (Some savedCart)) in
      attempt "Failed to update cart item"
        (if qty =? 0 then
           cart1 <- InMemory.removeItem itemId m ;; finish cart1
         else
           match CartController.findByRef products line with
           | None => Done (reject 404 "Product not found")
           | Some product =>
             match validateStock product 0 qty with
             | StockThrow msg => Raised (ErrorMessage msg)
             | StockInvalid maxAllowed message =>
                 Done (mkOutcome (Failure 400 message (Some maxAllowed) None) None)
             | StockValid =>
                 cart1 <- InMemory.updateItemQuantity itemId
                            (Z.min qty (p_stock product)) m ;;
                 finish cart1
             end
           end)
    end.

Definition removeCartItem (itemId : string) (cart : Cart) : Outcome :=
  if negb (isValidObjectId itemId) then reject 400 "Invalid item ID"
  else
    let m := CartController.populate products cart in
    match List.find (fun l => String.eqb (_id (line_item l)) itemId) (lines m) with
    | None => reject 404 "Cart item not found"
    | Some _ =>
        attempt "Failed to remove cart item"
          (cart1 <- InMemory.removeItem itemId m ;;
           savedCart <- save cart1 ;;
           Done (mkOutcome (Success (Some "Item removed from cart") savedCart None None)
                           (Some savedCart)))
    end.

(** One turn of the loop of [mergeCart] over the guest items; the guest cart
    is read without [populate()]. *)
Definition pruneGuestStep (validGuestItems : list CartItem) (item : CartItem)
    : list CartItem :=
  match CartController.findById products (productId item) with
  | Some product =>
      if p_isActive product && (p_stock product >? 0) then
        validGuestItems ++ [setQuantity (Z.min (quantity item) (p_stock product)) item]
      else validGuestItems
  | None => validGuestItems
  end.

(** One turn of its closing loop over the merged items. *)
Definition capByStock (l : Line) : Line :=
  match CartController.findByRef products l with
  | Some product => setLineQuantity (Z.min (quantity (line_item l)) (p_stock product)) l
  | None => l
  end.

Definition mergeCart (guestSessionId : option string) (reqUserId : option ObjectId)
    : MergeOutcome :=
  match nonEmpty guestSessionId with
  | None =>
      mkMergeOutcome (Failure 400 "Guest session ID is required" None None) None None
  | Some g =>
    let nothingToMerge :=
      match getOrCreateCart reqUserId None with
      | Some userCart =>
          mkMergeOutcome (Success (Some "No guest cart to merge") userCart None None)
                         None None
      | None =>
          mkMergeOutcome
            (Failure 500 "Failed to merge carts" None
               (Some (ErrorMessage "Either userId or sessionId is required")))
            None None
      end in
    match List.find (fun c => fieldIs (sessionId c) g) carts with
    | None => nothingToMerge
    | Some guestCart =>
      match items guestCart with
      | [] => nothingToMerge
      | _ :: _ =>
        match getOrCreateCart reqUserId None with
        | None =>
            mkMergeOutcome
              (Failure 500 "Failed to merge carts" None
                 (Some (ErrorMessage "Either userId or sessionId is required")))
              None None
        | Some userCart =>
            let validGuestItems := fold_left pruneGuestStep (items guestCart) [] in
            let guestCart1 := setItems validGuestItems guestCart in
            match (merged <- InMemory.mergeWith guestCart1
                               (CartController.populate products userCart) ;;
                   save (mkMem (map capByStock (lines merged)) (header merged))) with
            | Done savedCart =>
                mkMergeOutcome
                  (Success (Some "Carts merged successfully") savedCart None None)
                  (Some savedCart) (Some guestCart)
            | Raised err =>
                mkMergeOutcome (Failure 500 "Failed to merge carts" None (Some err))
                               None None
            end
        end
      end
    end
  end.

End Handlers.
End CartHandlers.


(** ** The operations of the cart engine, as data *)

Inductive EngineOp :=
| OpAddItem (productData : Product) (qty price : Z) (newId : ObjectId)
| OpUpdateItemQuantity (itemId : ObjectId) (newQuantity : Z)
| OpRemoveItem (itemId : ObjectId)
| OpClearCart
| OpApplyCoupon (couponData : Coupon) (discountCalculation : DiscountResult)
| OpRemoveCoupon
| OpMergeWith (otherCart : option Cart).

Definition runOp (op : EngineOp) (c : Cart) : Cart :=
  match op with
  | OpAddItem productData qty price newId => addItem productData qty price newId c
  | OpUpdateItemQuantity itemId newQuantity => updateItemQuantity itemId newQuantity c
  | OpRemoveItem itemId => removeItem itemId c
  | OpClearCart => clearCart c
  | OpApplyCoupon couponData discountCalculation => applyCoupon couponData discountCalculation c
  | OpRemoveCoupon => removeCoupon c
  | OpMergeWith otherCart => mergeWith otherCart c
  end.

(** ** Specification-side definitions *)

(** Σ priceAtAdd × quantity *)
Fixpoint itemsTotal (l : list CartItem) : Z :=
  match l with
  | [] => 0
  | it :: r => priceAtAdd it * quantity it + itemsTotal r
  end.

(** The recompute rule, read as a property of a cart. *)
Definition totalsConsistent (c : Cart) : Prop :=
  subtotal c = itemsTotal (items c)
  /\ totalDiscount c = match coupon c with
                       | Some cp => discountAmount cp
                       | None => Some 0
                       end
  /\ match totalDiscount c with
     | Some d => finalTotal c = Fin (Z.max 0 (subtotal c - d))
     | None => finalTotal c = NaN
     end
  /\ (forall z, finalTotal c = Fin z -> 0 <= z).

(** The operations that end in a recomputation whatever their input; the two
    others ([updateItemQuantity] on an unknown id, [mergeWith] on [null])
    return the cart as it was handed in. *)
Definition recomputes (op : EngineOp) (c : Cart) : bool :=
  match op with
  | OpUpdateItemQuantity itemId newQuantity =>
      (newQuantity <=? 0) || (itemsId itemId (items c) >? -1)
  | OpMergeWith None => false
  | _ => true
  end.


(** The items a coupon applies to: those whose product is in its
    applicable-product set. *)
Definition applicableItemsOf (ids : list ObjectId) (l : list CartItem) : list CartItem :=
  filter (fun it => productId it ∈ ids) l.

(** The validity rule of a coupon as the specification words it, with the
    window read as closed and as half-open. *)
Definition usageClaim (cp : Coupon) : Prop :=
  c_maxUsage cp = None \/ exists m, c_maxUsage cp = Some m /\ c_usageCount cp < m.

Definition validClaimClosed (cp : Coupon) (now : Z) : Prop :=
  c_isActive cp = true /\ c_startDate cp <= now <= c_endDate cp /\ usageClaim cp.

Definition validClaimHalfOpen (cp : Coupon) (now : Z) : Prop :=
  c_isActive cp = true /\ c_startDate cp <= now < c_endDate cp /\ usageClaim cp.

(** The rule the code follows: a cap of [0] counts as no cap. *)
Definition validAsCoded (cp : Coupon) (now : Z) : Prop :=
  c_isActive cp = true
  /\ c_startDate cp <= now <= c_endDate cp
  /\ (c_maxUsage cp = None \/ c_maxUsage cp = Some 0
      \/ exists m, c_maxUsage cp = Some m /\ c_usageCount cp < m).



(** Setting the quantity of the item with a given id. *)
Fixpoint setQuantitySpec (itemId : ObjectId) (q : Z) (l : list CartItem) : list CartItem :=
  match l with
  | [] => []
  | it :: r =>
      if decide (_id it = itemId) then setQuantity q it :: r
      else it :: setQuantitySpec itemId q r
  end.

(** The quantity a cart holds of a product, over all its lines. *)
Fixpoint quantityOfProduct (pid : ObjectId) (l : list CartItem) : Z :=
  match l with
  | [] => 0
  | it :: r =>
      (if decide (productId it = pid) then quantity it else 0) + quantityOfProduct pid r
  end.

(** The recompute rule with every amount a number: the coupon, if there is
    one, carries a discount amount [d] ([0] without a coupon), and the three
    derived fields are the sum over the items, [d], and
    [max(0, subtotal - d)]. *)
Definition totalsExact (c : Cart) : Prop :=
  exists d,
    match coupon c with
    | Some cp => discountAmount cp = Some d
    | None => d = 0
    end
    /\ subtotal c = itemsTotal (items c)
    /\ totalDiscount c = Some d
    /\ finalTotal c = Fin (Z.max 0 (subtotal c - d)).


(** ** Example data *)

Definition noAttributes : Attributes := mkAttributes None None None None.
Definition noImage : Image := mkImage None None.

Definition fern : Product := mkProduct "p-fern" "Fern" "FERN-1" [] noAttributes 299 5 true.
Definition cactus : Product := mkProduct "p-cactus" "Cactus" "CACT-1" [] noAttributes 500 4 true.

Definition fernItem (q : Z) : CartItem :=
  mkItem "i-fern" "p-fern" (mkSnapshot "Fern" "FERN-1" noImage noAttributes) q 299 "INR".
Definition cactusItem (q : Z) : CartItem :=
  mkItem "i-cactus" "p-cactus" (mkSnapshot "Cactus" "CACT-1" noImage noAttributes) q 500 "INR".

(** SAVE20: 20% off the fern, valid from instant 1000 to instant 2000. *)
Definition save20 : Coupon :=
  mkCoupon "SAVE20" "percentage" 20 ["p-fern"] 1000 2000 true 0 None.

(** The same coupon switched off by an administrator. *)
Definition save20Inactive : Coupon :=
  mkCoupon "SAVE20" "percentage" 20 ["p-fern"] 1000 2000 false 0 None.

(** The same coupon with a usage cap of [0]. *)
Definition save20CapZero : Coupon :=
  mkCoupon "SAVE20" "percentage" 20 ["p-fern"] 1000 2000 true 0 (Some 0).

(** A cart holding two ferns, and a catalogue where only three are in stock. *)
Definition twoFerns : Cart :=
  calculateFinalTotal (setItems [fernItem 2] (newCart None (Some "guest-1"))).

Definition scarceFern : Product :=
  mkProduct "p-fern" "Fern" "FERN-1" [] noAttributes 299 3 true.

(** A cart holding three ferns with SAVE20 applied (scenario 3). *)
Definition threeFernsSaved : Cart :=
  applyCoupon save20 (DObject 179 897 [fernItem 3])
    (setItems [fernItem 3] (newCart None (Some "guest-1"))).

(** A fern that has been taken off sale. *)
Definition retiredFern : Product :=
  mkProduct "p-fern" "Fern" "FERN-1" [] noAttributes 299 5 false.

(** One fern and one cactus, with SAVE20 applied to the fern. *)
Definition fernAndCactusSaved : Cart :=
  applyCoupon save20 (DObject 60 299 [fernItem 1])
    (setItems [fernItem 1; cactusItem 1] (newCart None (Some "guest-1"))).

(** ** Further code of the models *)

(** [cartSchema.virtual("itemCount")] *)
Definition itemCount (c : Cart) : Z :=
  fold_left (fun total item => total + quantity item) (items c) 0.

(** [couponSchema.virtual("isDateValid")] *)
Definition isDateValid (cp : Coupon) (now : Z) : bool :=
  (c_startDate cp <=? now) && (now <=? c_endDate cp).

Definition setStock (s : Z) (p : Product) : Product :=
  mkProduct (p_id p) (p_title p) (p_sku p) (p_images p) (p_attributes p) (p_price p) s
            (p_isActive p).

(** [productSchema.methods.isInStock], with its default quantity of 1. *)
Definition isInStock (p : Product) (qty : option Z) : bool :=
  p_stock p >=? match qty with Some q => q | None => 1 end.

(** [productSchema.methods.reduceStock]: the product it saves, or the error
    it throws. *)
Definition reduceStock (p : Product) (qty : Z) : Product + Thrown :=
  if p_stock p >=? qty then inl (setStock (p_stock p - qty) p)
  else inr (ErrorMessage "Insufficient stock").



(** ** Further specification-side definitions *)

(** Σ quantity *)
Fixpoint quantityTotal (l : list CartItem) : Z :=
  match l with
  | [] => 0
  | it :: r => quantity it + quantityTotal r
  end.


(** An item as [getCart] keeps it: an item of the cart it read, of a product
    that is on sale, with its quantity brought down to the stock. *)
Definition keptOnRead (products : list Product) (original : list CartItem)
    (it : CartItem) : Prop :=
  exists orig p,
    orig ∈ original
    /\ CartController.findById products (productId orig) = Some p
    /\ p_isActive p = true
    /\ it = setQuantity (Z.min (quantity orig) (p_stock p)) orig.

(** Two ferns in a guest cart and two in a user cart. *)
Definition guestFernItem (q : Z) : CartItem :=
  mkItem "i-guest-fern" "p-fern" (mkSnapshot "Fern" "FERN-1" noImage noAttributes) q 299 "INR".

Definition guestTwoFerns : Cart :=
  calculateFinalTotal (setItems [guestFernItem 2] (newCart None (Some "guest-1"))).

Definition userTwoFerns : Cart :=
  calculateFinalTotal (setItems [fernItem 2] (newCart (Some "u-1") None)).

(** The stock cap of [mergeCart] on a stored item. *)
Definition capItem (products : list Product) (it : CartItem) : CartItem :=
  match CartController.findById products (productId it) with
  | Some product => setQuantity (Z.min (quantity it) (p_stock product)) it
  | None => it
  end.

(** The line [addItem] pushes for a product. *)
Definition newLineOf (productData : Product) (qty price : Z) (newId : ObjectId) : CartItem :=
  mkItem newId (p_id productData)
         (mkSnapshot (p_title productData) (p_sku productData)
            (match p_images productData with
             | img :: _ => img
             | [] => mkImage None None
             end)
            (p_attributes productData))
         qty price "INR".

(** Three ferns without a coupon (scenario 2). *)
Definition threeFerns : Cart :=
  calculateFinalTotal (setItems [fernItem 3] (newCart None (Some "guest-1"))).


(** A fern of which one is left, and a guest cart with one cactus. *)
Definition lastFern : Product :=
  mkProduct "p-fern" "Fern" "FERN-1" [] noAttributes 299 1 true.

Definition guestOneCactus : Cart :=
  calculateFinalTotal (setItems [cactusItem 1] (newCart None (Some "guest-1"))).

(** A line whose [productId] does not hold the stored id: every line of a
    cart that was loaded with [populate()]. *)
Definition populated (l : Line) : Prop := line_ref l <> Unpopulated.

(** Closed statements about the example data are settled by evaluation. *)
Ltac evaluated :=
  repeat apply conj; vm_compute; try reflexivity; try discriminate.

(** * Properties *)

(** ** Totals *)

Lemma fold_left_itemsTotal (l : list CartItem) (a : Z) :
  fold_left (fun total item => total + priceAtAdd item * quantity item) l a
  = a + itemsTotal l.
Proof.
  revert a; induction l as [|it r IH]; intros a; simpl.
  - lia.
  - rewrite IH. lia.
Qed.

Lemma itemsTotal_app (l1 l2 : list CartItem) :
  itemsTotal (l1 ++ l2) = itemsTotal l1 + itemsTotal l2.
Proof. induction l1 as [|it r IH]; simpl; lia. Qed.

Lemma calculateFinalTotal_items c : items (calculateFinalTotal c) = items c.
Proof. reflexivity. Qed.

Lemma calculateFinalTotal_coupon c : coupon (calculateFinalTotal c) = coupon c.
Proof. reflexivity. Qed.

Lemma calculateFinalTotal_subtotal c :
  subtotal (calculateFinalTotal c) = itemsTotal (items c).
Proof. simpl. now rewrite fold_left_itemsTotal. Qed.

(** Whatever the cart held before, [calculateFinalTotal] leaves its derived
    fields consistent with its items and coupon. *)
Lemma calculateFinalTotal_consistent (c : Cart) :
  totalsConsistent (calculateFinalTotal c).
Proof.
  unfold totalsConsistent, calculateFinalTotal, calculateSubtotal; simpl.
  rewrite fold_left_itemsTotal.
  destruct (coupon c) as [cp|]; simpl; [destruct (discountAmount cp) as [d|]|];
    simpl; repeat split; try discriminate; intros z [= <-]; lia.
Qed.

Lemma newCart_consistent u s : totalsConsistent (newCart u s).
Proof. unfold totalsConsistent; simpl. repeat split. intros z [= <-]. lia. Qed.

Lemma removeItem_consistent itemId c : totalsConsistent (removeItem itemId c).
Proof.
  unfold removeItem.
  set (c1 := calculateFinalTotal _).
  destruct (coupon c1) as [cp|], (items c1) as [|it r];
    try apply calculateFinalTotal_consistent.
  destruct (negb _); apply calculateFinalTotal_consistent.
Qed.

Lemma runOp_recomputes op c :
  recomputes op c = true -> totalsConsistent (runOp op c).
Proof.
  destruct op as [p q pr i|i q|i| |cd dc| |[o|]]; simpl; intros H;
    try apply calculateFinalTotal_consistent;
    try apply removeItem_consistent; try discriminate.
  unfold updateItemQuantity.
  destruct (q <=? 0); [apply removeItem_consistent|].
  simpl in H. rewrite H. apply calculateFinalTotal_consistent.
Qed.


Lemma calculateFinalTotal_exact (c : Cart) :
  (forall cp, coupon c = Some cp -> exists d, discountAmount cp = Some d) ->
  totalsExact (calculateFinalTotal c).
Proof.
  intros Hnum. unfold totalsExact, calculateFinalTotal, calculateSubtotal; simpl.
  rewrite fold_left_itemsTotal, Z.add_0_l.
  destruct (coupon c) as [cp|].
  - destruct (Hnum cp eq_refl) as (d & Hd). exists d. rewrite Hd. repeat split.
  - exists 0. repeat split.
Qed.








(** ** Coupon discount *)

Lemma includes_elem_of (ids : list ObjectId) (id : ObjectId) :
  includes ids id = true <-> id ∈ ids.
Proof.
  unfold includes. rewrite existsb_exists. split.
  - intros (x & Hx & E). apply String.eqb_eq in E. subst. now apply list_elem_of_In.
  - intros H. exists id. split; [now apply list_elem_of_In | apply String.eqb_refl].
Qed.

Lemma includes_false (ids : list ObjectId) (id : ObjectId) :
  includes ids id = false <-> id ∉ ids.
Proof.
  rewrite <- includes_elem_of. destruct (includes ids id); split; congruence.
Qed.

Lemma isApplicableToProducts_spec (cp : Coupon) (productIds : list ObjectId) :
  isApplicableToProducts cp productIds = true
  <-> exists pid, pid ∈ productIds /\ pid ∈ c_applicableProducts cp.
Proof.
  unfold isApplicableToProducts. rewrite existsb_exists. split.
  - intros (pid & Hin & Hinc). exists pid.
    split; [now apply list_elem_of_In | now apply includes_elem_of].
  - intros (pid & Hin & Hinc). exists pid.
    split; [now apply list_elem_of_In | now apply includes_elem_of].
Qed.

(** The loop of [calculateDiscount] adds up, and collects, the applicable items. *)
Lemma fold_discountStep (ids : list ObjectId) (l : list CartItem) (a : Z)
    (acc : list CartItem) :
  fold_left (discountStep ids) l (a, acc)
  = (a + itemsTotal (applicableItemsOf ids l), acc ++ applicableItemsOf ids l).
Proof.
  revert a acc; induction l as [|it r IH]; intros a acc.
  - simpl. f_equal; [lia | now rewrite app_nil_r].
  - cbn [fold_left]. unfold discountStep at 2. unfold applicableItemsOf in *.
    destruct (includes ids (productId it)) eqn:E.
    + apply includes_elem_of in E. rewrite filter_cons_True by assumption.
      cbn [fst snd]. rewrite IH. cbn [itemsTotal]. f_equal; [lia|].
      now rewrite <- app_assoc.
    + apply includes_false in E. rewrite filter_cons_False by assumption.
      apply IH.
Qed.

(** [Math.round] picks the integer nearest to [p / 100], a tie going up:
    [r − 1/2 ≤ p/100 < r + 1/2]. *)
Lemma mathRoundDiv100_nearest (p : Z) :
  200 * mathRoundDiv100 p - 100 <= 2 * p < 200 * mathRoundDiv100 p + 100.
Proof.
  unfold mathRoundDiv100.
  pose proof (Z.div_mod (2 * p + 100) 200 ltac:(lia)).
  pose proof (Z.mod_pos_bound (2 * p + 100) 200 ltac:(lia)).
  lia.
Qed.

(** A valid percentage coupon with a non-zero applicable subtotal gets the
    result object the specification describes. *)
Lemma calculateDiscount_object (cp : Coupon) (now : Z) (cartItems : list CartItem) :
  isValid cp now = true ->
  c_discountType cp = "percentage" ->
  itemsTotal (applicableItemsOf (c_applicableProducts cp) cartItems) <> 0 ->
  calculateDiscount cp now cartItems
  = DObject
      (mathRoundDiv100
         (itemsTotal (applicableItemsOf (c_applicableProducts cp) cartItems)
          * c_discountValue cp))
      (itemsTotal (applicableItemsOf (c_applicableProducts cp) cartItems))
      (applicableItemsOf (c_applicableProducts cp) cartItems).
Proof.
  intros Hv Ht Hs. unfold calculateDiscount.
  rewrite Hv, fold_discountStep. cbn [negb fst snd]. rewrite Z.add_0_l.
  apply Z.eqb_neq in Hs. rewrite Hs, Ht. reflexivity.
Qed.

(** An invalid coupon, or one with nothing to apply to, gets the number [0]. *)
Lemma calculateDiscount_number (cp : Coupon) (now : Z) (cartItems : list CartItem) :
  isValid cp now = false
  \/ itemsTotal (applicableItemsOf (c_applicableProducts cp) cartItems) = 0 ->
  calculateDiscount cp now cartItems = DZero.
Proof.
  intros H. unfold calculateDiscount.
  destruct (isValid cp now); cbn [negb]; [|reflexivity].
  destruct H as [H|H]; [discriminate|].
  rewrite fold_discountStep. cbn [fst]. rewrite Z.add_0_l, H. reflexivity.
Qed.

Lemma calculateDiscount_cases (cp : Coupon) (now : Z) (cartItems : list CartItem) :
  calculateDiscount cp now cartItems = DZero
  \/ exists a, a <> 0 /\
       calculateDiscount cp now cartItems
       = DObject (if String.eqb (c_discountType cp) "percentage"
                  then mathRoundDiv100 (a * c_discountValue cp) else 0)
                 a (applicableItemsOf (c_applicableProducts cp) cartItems)
       /\ a = itemsTotal (applicableItemsOf (c_applicableProducts cp) cartItems)
       /\ isValid cp now = true.
Proof.
  unfold calculateDiscount.
  destruct (isValid cp now); cbn [negb]; [|now left].
  rewrite fold_discountStep. cbn [fst snd]. rewrite Z.add_0_l.
  destruct (Z.eqb_spec (itemsTotal (applicableItemsOf (c_applicableProducts cp) cartItems)) 0);
    [now left|right].
  eexists; repeat split; eauto.
Qed.

(** C2. For a coupon that is not valid, [calculateDiscount] hands back the
    number [0] and not a result object: reading [discountAmount] off it gives
    [undefined], where the claim promises a zero-discount object. *)
Theorem calculateDiscount_invalid_coupon_gives_number :
  isValid save20Inactive 1500 = false
  /\ calculateDiscount save20Inactive 1500 [fernItem 3] = DZero
  /\ discountAmountOf (calculateDiscount save20Inactive 1500 [fernItem 3]) = None
  /\ discountAmountOf (calculateDiscount save20Inactive 1500 [fernItem 3]) <> Some 0.
Proof. repeat split; try reflexivity. discriminate. Qed.

(** Scenario 3: SAVE20 on three ferns at 299 takes 179 off 897. *)
Example calculateDiscount_scenario3 :
  calculateDiscount save20 1500 [fernItem 3] = DObject 179 897 [fernItem 3].
Proof. reflexivity. Qed.

(** ** Reading the cart *)

(** C3. A stored cart of one fern and one cactus carries SAVE20, which
    applies to the fern.  The fern has been taken off sale.  [getCart] drops
    the fern; the coupon is still valid, and over the remaining cactus
    [calculateDiscount] answers with the number [0].  The test
    [discountAmount === 0] does not catch it, the coupon is applied again
    without a discount amount, [save()] rejects the cart, and the request
    ends in the 500 answer with nothing saved: the coupon is neither removed
    nor reported. *)
Theorem getCart_fails_on_coupon_without_applicable_items :
  CartController.getCart [retiredFern; cactus] [save20] 1500 fernAndCactusSaved
  = mkOutcome (Failure 500 "Failed to fetch cart" None (Some ValidationError)) None
  /\ fold_left (CartController.getCartStep [retiredFern; cactus])
               (lines (CartController.populate [retiredFern; cactus] fernAndCactusSaved))
               ([], [])
     = ([mkLine (cactusItem 1) PopulatedDoc],
        [mkRemoved "Fern" "Product no longer available"])
  /\ isValid save20 1500 = true
  /\ applicableItemsOf (c_applicableProducts save20) [cactusItem 1] = []
  /\ InMemory.calculateDiscount save20 1500 [mkLine (cactusItem 1) PopulatedDoc] = Done DZero
  /\ strictEq0 (discountAmountOf DZero) = false.
Proof. evaluated. Qed.

(** The same happens when the remaining items are applicable: a product
    document in the place of [productId] never matches an applicable id, so
    the discount of a populated cart is always the number [0]. *)
Example getCart_fails_on_applicable_coupon :
  CartController.getCart [fern; cactus] [save20] 1500 threeFernsSaved
  = mkOutcome (Failure 500 "Failed to fetch cart" None (Some ValidationError)) None.
Proof. evaluated. Qed.

(** The other branches work as the specification says: an expired coupon is
    removed and reported, ... *)
Example getCart_expired_coupon :
  exists cart',
    CartController.getCart [fern; cactus] [save20] 2500 fernAndCactusSaved
    = mkOutcome
        (Success None cart' (Some [mkRemoved "Coupon" "Coupon expired or invalid"]) None)
        (Some cart')
    /\ coupon cart' = None /\ finalTotal cart' = Fin 799.
Proof. eexists. evaluated. Qed.

(** ... and a quantity above the stock is clamped, or the item dropped. *)
Example getCart_clamps_and_drops :
  let cart := setItems [fernItem 7; cactusItem 2] (newCart None (Some "guest-1")) in
  let soldOut := mkProduct "p-cactus" "Cactus" "CACT-1" [] noAttributes 500 0 true in
  exists cart',
    CartController.getCart [fern; soldOut] [] 1500 cart
    = mkOutcome
        (Success None cart'
           (Some [mkRemoved "Fern" "Quantity reduced to 5 (available stock)";
                  mkRemoved "Cactus" "Out of stock"]) None)
        (Some cart')
    /\ items cart' = [fernItem 5] /\ subtotal cart' = 1495.
Proof. eexists. evaluated. Qed.

(** ** Coupon validity *)

Lemma notMaxUsage_true (m : option Z) :
  notMaxUsage m = true <-> m = None \/ m = Some 0.
Proof.
  destruct m as [v|]; simpl.
  - rewrite Z.eqb_eq. split; [intros ->; now right | intros [H|[= ->]]; [discriminate|reflexivity]].
  - split; [now left | reflexivity].
Qed.

(** C4 (as the code has it). [isValid] holds exactly when the coupon is
    active, [now] lies in the closed window from startDate to endDate, and
    maxUsage is null or 0, or usageCount is below maxUsage. *)
Theorem isValid_iff (cp : Coupon) (now : Z) :
  isValid cp now = true <-> validAsCoded cp now.
Proof.
  unfold isValid, validAsCoded.
  rewrite !andb_true_iff, orb_true_iff, notMaxUsage_true, !Z.leb_le.
  split.
  - intros [[Ha Hd] Hu]. repeat split; try tauto.
    destruct Hu as [[H|H]|H]; [tauto|tauto|].
    destruct (c_maxUsage cp) as [m|]; [|discriminate].
    right; right. exists m. split; [reflexivity | now apply Z.ltb_lt].
  - intros (Ha & Hd & Hu). repeat split; try tauto.
    destruct Hu as [H|[H|(m & Hm & Hlt)]]; [tauto|tauto|].
    right. rewrite Hm. now apply Z.ltb_lt.
Qed.

(** C4 (as the claim has it) fails for a usage cap of [0]: the coupon is
    accepted although maxUsage is not null and usageCount is not below it,
    whichever way the window is read. *)
Lemma isValid_cap_zero_accepted :
  isValid save20CapZero 1500 = true
  /\ ~ validClaimClosed save20CapZero 1500
  /\ ~ validClaimHalfOpen save20CapZero 1500.
Proof.
  split; [reflexivity|].
  split; intros (_ & _ & [H|(m & Hm & Hlt)]); try discriminate;
    simpl in Hm, Hlt; injection Hm as <-; lia.
Qed.

(** The window is closed at both ends: a coupon is still valid at [endDate]. *)
Example isValid_at_endDate : isValid save20 2000 = true.
Proof. reflexivity. Qed.

(** ** Lists, as the array methods use them *)

Lemma filter_negb_eqb {A} (f : A -> string) (s : string) (l : list A) :
  List.filter (fun x => negb (String.eqb (f x) s)) l = filter (fun x => f x <> s) l.
Proof.
  induction l as [|x r IH]; [reflexivity|]. simpl.
  destruct (String.eqb_spec (f x) s) as [E|E]; simpl.
  - rewrite filter_cons_False by tauto. exact IH.
  - rewrite filter_cons_True by assumption. now rewrite IH.
Qed.

(** [findIndex] answers [-1] exactly when no element passes the test. *)
Lemma findIndexFrom_none {A} (p : A -> bool) (l : list A) (i : Z) :
  0 <= i -> (findIndexFrom p l i = -1 <-> Forall (fun x => p x = false) l).
Proof.
  revert i; induction l as [|x r IH]; intros i Hi; simpl.
  - split; [constructor | reflexivity].
  - destruct (p x) eqn:E.
    + split; [lia | intros H; inversion H; congruence].
    + rewrite IH by lia. split; [now constructor | intros H; now inversion H].
Qed.

(** Otherwise it splits the list at the first element that passes. *)
Lemma findIndexFrom_some {A} (p : A -> bool) (l : list A) (i : Z) :
  0 <= i -> findIndexFrom p l i <> -1 ->
  exists l1 x l2,
    l = l1 ++ x :: l2 /\ Forall (fun y => p y = false) l1 /\ p x = true
    /\ findIndexFrom p l i = i + Z.of_nat (length l1).
Proof.
  revert i; induction l as [|x r IH]; intros i Hi; simpl; [congruence|].
  destruct (p x) eqn:E; intros H.
  - exists [], x, r. simpl. split; [reflexivity|]. split; [constructor|]. split; [assumption|lia].
  - destruct (IH (i + 1) ltac:(lia) H) as (l1 & y & l2 & -> & Hf & Hy & Hidx).
    exists (x :: l1), y, l2. simpl length.
    split; [reflexivity|]. split; [now constructor|]. split; [assumption|lia].
Qed.

Lemma findIndex_cases {A} (p : A -> bool) (l : list A) :
  (findIndex p l = -1 /\ Forall (fun x => p x = false) l)
  \/ (exists l1 x l2,
        l = l1 ++ x :: l2 /\ Forall (fun y => p y = false) l1 /\ p x = true
        /\ findIndex p l = Z.of_nat (length l1)).
Proof.
  unfold findIndex. destruct (Z.eq_dec (findIndexFrom p l 0) (-1)) as [E|E].
  - left. split; [assumption | now apply (findIndexFrom_none p l 0)].
  - right. destruct (findIndexFrom_some p l 0 ltac:(lia) E) as (l1 & x & l2 & ? & ? & ? & ?).
    exists l1, x, l2. split; [assumption|]. split; [assumption|]. split; [assumption|lia].
Qed.

Lemma alter_middle {A} (f : A -> A) (l1 : list A) (x : A) (l2 : list A) :
  alter f (length l1) (l1 ++ x :: l2) = l1 ++ f x :: l2.
Proof. induction l1 as [|y r IH]; simpl; [reflexivity | now f_equal]. Qed.

(** ** Removing an item *)


(** [removeItem] is a filter followed by the coupon revalidation. *)
Lemma removeItem_unfold (itemId : ObjectId) (c : Cart) :
  exists c1,
    items c1 = filter (fun it => _id it <> itemId) (items c)
    /\ coupon c1 = coupon c
    /\ totalsConsistent c1
    /\ removeItem itemId c =
       match coupon c1, items c1 with
       | Some cp, _ :: _ =>
           if negb (existsb (fun item =>
                       existsb (fun pid => String.eqb pid (productId item))
                               (applicableProducts cp)) (items c1))
           then calculateFinalTotal (setCoupon None c1) else c1
       | _, [] => calculateFinalTotal (setCoupon None c1)
       | None, _ :: _ => c1
       end.
Proof.
  eexists. split; [|split; [|split; [|reflexivity]]].
  - simpl. apply filter_negb_eqb.
  - reflexivity.
  - apply calculateFinalTotal_consistent.
Qed.

Lemma removeItem_items (itemId : ObjectId) (c : Cart) :
  items (removeItem itemId c) = filter (fun it => _id it <> itemId) (items c).
Proof.
  destruct (removeItem_unfold itemId c) as (c1 & Hi & _ & _ & ->).
  rewrite <- Hi.
  destruct (coupon c1) as [cp|]; destruct (items c1) as [|it r] eqn:E;
    try (simpl; congruence).
  destruct (negb _); simpl; congruence.
Qed.



(** Scenario 4: removing the only item clears the coupon and zeroes the totals. *)
Example removeItem_scenario4 :
  let c := applyCoupon save20 (DObject 179 897 [fernItem 3])
             (setItems [fernItem 3] (newCart None (Some "guest-1"))) in
  removeItem "i-fern" c = newCart None (Some "guest-1").
Proof. reflexivity. Qed.

(** ** Merging carts *)







(** Scenario 5: a guest cart with two ferns merged into a user cart with one
    cactus and a coupon gives both items, the fern at the guest's price, and
    no coupon. *)
Example mergeWith_scenario5 :
  let guest := calculateFinalTotal (setItems [fernItem 2] (newCart None (Some "guest-1"))) in
  let user := applyCoupon save20 (DObject 100 500 [])
                (setItems [cactusItem 1] (newCart (Some "u-1") None)) in
  items (mergeWith (Some guest) user) = [cactusItem 1; fernItem 2]
  /\ coupon (mergeWith (Some guest) user) = None
  /\ subtotal (mergeWith (Some guest) user) = 1098
  /\ finalTotal (mergeWith (Some guest) user) = Fin 1098.
Proof. repeat split. Qed.

(** When both carts hold the product, the merged-in price wins. *)
Example mergeWith_price_of_other :
  let guest := setItems [setPriceAtAdd 250 (fernItem 2)] (newCart None (Some "guest-1")) in
  let user := setItems [fernItem 1; cactusItem 1] (newCart (Some "u-1") None) in
  items (mergeWith (Some guest) user) = [setPriceAtAdd 250 (fernItem 3); cactusItem 1].
Proof. reflexivity. Qed.

(** ** Adding to the cart *)

(** C7. Three ferns are in stock and the stored cart holds two (scenario 6).
    A request for two more is accepted: in the cart [getOrCreateCart] loads,
    the product document stands in the place of the line's [productId], so the
    search for an existing line finds none, the quantity in the cart is taken
    to be 0, and a second line is pushed.  The saved cart holds four ferns. *)
Theorem addToCart_misses_stored_line :
  exists cart',
    CartController.addToCart (fun _ => true) [scarceFern] [] 1500 (Some "p-fern") (Some 2)
      "i-new" twoFerns
    = mkOutcome (Success (Some "Item added to cart") cart' None None) (Some cart')
    /\ items cart' = [fernItem 2; newLineOf scarceFern 2 299 "i-new"]
    /\ findE (refEquals "p-fern")
             (lines (CartController.populate [scarceFern] twoFerns)) = Done None
    /\ quantityOfProduct "p-fern" (items twoFerns) = 2
    /\ p_stock scarceFern = 3
    /\ quantityOfProduct "p-fern" (items cart') = 4.
Proof. eexists. evaluated. Qed.

(** What the stock check itself answers when it is given the quantity the
    cart holds. *)
Example validateStock_scenario6 :
  validateStock scarceFern 2 2
  = StockInvalid 1 "Only 3 units available for Fern. You already have 2 in cart.".
Proof. evaluated. Qed.

(** A stored line whose product has been deleted makes the request end in
    the 500 answer. *)
Example addToCart_deleted_product_line :
  CartController.addToCart (fun _ => true) [cactus] [] 1500 (Some "p-cactus") (Some 1)
    "i-new" twoFerns
  = mkOutcome (Failure 500 "Failed to add item to cart" None (Some TypeError)) None.
Proof. evaluated. Qed.

(** Scenario 1: two ferns into a fresh cart. *)
Example addToCart_scenario1 :
  exists cart',
    CartController.addToCart (fun _ => true) [fern] [] 1500 (Some "p-fern") (Some 2)
      "i-fern" (newCart None (Some "guest-1"))
    = mkOutcome (Success (Some "Item added to cart") cart' None None) (Some cart')
    /\ items cart' = [fernItem 2] /\ subtotal cart' = 598 /\ finalTotal cart' = Fin 598.
Proof. eexists. evaluated. Qed.

(** ** Applying a coupon *)

(** C8. The stored cart holds three ferns and SAVE20 is valid and applies to
    the fern (scenario 3): the cart is not empty, the code exists, the coupon
    is valid, it is applicable to the product ids of the cart and its discount
    is 179.  The handler refuses the request at the fourth check all the
    same: it hands [isApplicableToProducts] the populated lines, whose
    product documents match no applicable id. *)
Theorem applyCoupon_refuses_applicable_coupon :
  CartController.applyCoupon [fern] [save20] 1500 (Some "save20") threeFerns
  = reject 400 "Coupon is not applicable to any products in your cart"
  /\ items threeFerns <> []
  /\ CartController.findOne [save20] (toUpperCase "save20") = Some save20
  /\ isValid save20 1500 = true
  /\ isApplicableToProducts save20 (map productId (items threeFerns)) = true
  /\ calculateDiscount save20 1500 (items threeFerns) = DObject 179 897 [fernItem 3]
  /\ InMemory.isApplicableToProducts save20
       (lines (CartController.populate [fern] threeFerns)) = Done false.
Proof. evaluated. Qed.

(** The reasons reported by the failing checks differ from one another. *)
Lemma applyCoupon_reasons_distinct :
  NoDup ["Coupon code is required";
         "Cannot apply coupon to empty cart";
         "Invalid coupon code";
         "Coupon is expired or inactive";
         "Coupon is not applicable to any products in your cart";
         "Coupon cannot be applied to current cart items"].
Proof.
  repeat (apply NoDup_cons; split;
          [rewrite ?elem_of_cons, elem_of_nil; intuition discriminate|]).
  apply NoDup_nil_2.
Qed.

(** The first three checks answer as the specification says. *)
Example applyCoupon_first_checks :
  CartController.applyCoupon [fern] [save20] 1500 (Some "save20") (newCart None (Some "g"))
  = reject 400 "Cannot apply coupon to empty cart"
  /\ CartController.applyCoupon [fern] [save20] 1500 (Some "other") threeFerns
     = reject 404 "Invalid coupon code"
  /\ CartController.applyCoupon [fern] [save20] 2500 (Some "save20") threeFerns
     = reject 400 "Coupon is expired or inactive".
Proof. evaluated. Qed.

(** ** Updating a quantity *)

Lemma setQuantitySpec_absent (itemId : ObjectId) (q : Z) (l : list CartItem) :
  (forall it, it ∈ l -> _id it <> itemId) -> setQuantitySpec itemId q l = l.
Proof.
  induction l as [|it r IH]; intros H; simpl; [reflexivity|].
  rewrite decide_False by (apply H; left).
  rewrite IH; [reflexivity|]. intros x Hx. apply H. now right.
Qed.



Example updateItemQuantity_sets :
  let c := calculateFinalTotal
             (setItems [fernItem 1; cactusItem 1] (newCart (Some "u-1") None)) in
  items (updateItemQuantity "i-cactus" 3 c) = [fernItem 1; cactusItem 3]
  /\ subtotal (updateItemQuantity "i-cactus" 3 c) = 1799
  /\ updateItemQuantity "i-unknown" 3 c = c
  /\ items (updateItemQuantity "i-cactus" 0 c) = [fernItem 1].
Proof. repeat split. Qed.

(** ** Coupon revalidation on add *)

(** C10. The stored cart holds three ferns with SAVE20 applied, and one more
    fern is added.  The coupon is kept, as the added product is applicable;
    but the discount is recomputed over the new line alone, the stored line
    being populated: it is 60, 20% of one fern, where 20% of the four ferns
    of the cart is 239. *)
Theorem addToCart_discount_over_new_line_only :
  exists cart',
    CartController.addToCart (fun _ => true) [fern; cactus] [save20] 1500 (Some "p-fern")
      (Some 1) "i-new" threeFernsSaved
    = mkOutcome (Success (Some "Item added to cart") cart' None None) (Some cart')
    /\ items cart' = [fernItem 3; newLineOf fern 1 299 "i-new"]
    /\ coupon cart' = Some (mkCartCoupon "SAVE20" "percentage" 20 (Some 60) ["p-fern"])
    /\ totalDiscount cart' = Some 60
    /\ calculateDiscount save20 1500 (items cart')
       = DObject 239 1196 [fernItem 3; newLineOf fern 1 299 "i-new"].
Proof. eexists. evaluated. Qed.

(** Adding a product the coupon does not list removes the coupon, although
    the ferns it applies to are still in the cart. *)
Example addToCart_other_product_removes_coupon :
  exists cart',
    CartController.addToCart (fun _ => true) [fern; cactus] [save20] 1500 (Some "p-cactus")
      (Some 1) "i-new" threeFernsSaved
    = mkOutcome (Success (Some "Item added to cart") cart' None None) (Some cart')
    /\ items cart' = [fernItem 3; newLineOf cactus 1 500 "i-new"]
    /\ coupon cart' = None.
Proof. eexists. evaluated. Qed.

(** * Further properties of the cart engine *)

(** ** Fixed points of the recomputation *)

Lemma calculateFinalTotal_fixed (c : Cart) :
  totalsConsistent c -> calculateFinalTotal c = c.
Proof.
  destruct c as [u s l st cp td ft cur].
  unfold totalsConsistent, calculateFinalTotal, calculateSubtotal; simpl.
  intros (-> & -> & Hf & _). rewrite fold_left_itemsTotal, Z.add_0_l.
  destruct cp as [k|]; [destruct (discountAmount k)|]; simpl in *; now rewrite Hf.
Qed.

Lemma list_filter_all {A} (p : A -> bool) (l : list A) :
  Forall (fun x => p x = true) l -> List.filter p l = l.
Proof.
  induction 1 as [|x r Hx _ IH]; simpl; [reflexivity|]. now rewrite Hx, IH.
Qed.

Lemma list_filter_twice {A} (p : A -> bool) (l : list A) :
  List.filter p (List.filter p l) = List.filter p l.
Proof.
  apply list_filter_all, Forall_forall. intros x Hx.
  apply list_elem_of_In, filter_In in Hx. tauto.
Qed.

(** Removing an id the cart does not hold changes nothing, on a cart whose
    totals are consistent and whose coupon, if it has one, still has an
    applicable item. *)
Lemma removeItem_stable (itemId : ObjectId) (c : Cart) :
  totalsConsistent c ->
  List.filter (fun item => negb (String.eqb (_id item) itemId)) (items c) = items c ->
  match coupon c, items c with
  | Some cp, _ :: _ =>
      existsb (fun item =>
                 existsb (fun pid => String.eqb pid (productId item)) (applicableProducts cp))
              (items c) = true
  | Some _, [] => False
  | None, _ => True
  end ->
  removeItem itemId c = c.
Proof.
  intros Hc Hf Hk. unfold removeItem. rewrite Hf.
  assert (E : setItems (items c) c = c) by (now destruct c).
  rewrite E, (calculateFinalTotal_fixed c Hc).
  destruct (coupon c) as [cp|] eqn:Ecp, (items c) as [|it r] eqn:Ei; try contradiction.
  - now rewrite Hk.
  - assert (E' : setCoupon None c = c) by (destruct c; simpl in *; now subst).
    now rewrite E', (calculateFinalTotal_fixed c Hc).
  - reflexivity.
Qed.

Lemma removeItem_keeps_applicable (itemId : ObjectId) (c : Cart) :
  match coupon (removeItem itemId c), items (removeItem itemId c) with
  | Some cp, _ :: _ =>
      existsb (fun item =>
                 existsb (fun pid => String.eqb pid (productId item)) (applicableProducts cp))
              (items (removeItem itemId c)) = true
  | Some _, [] => False
  | None, _ => True
  end.
Proof.
  destruct (removeItem_unfold itemId c) as (c1 & _ & _ & _ & ->).
  destruct (coupon c1) as [cp|] eqn:Ec, (items c1) as [|it r] eqn:E.
  - exact I.
  - destruct (existsb _ (it :: r)) eqn:Eb; cbn [negb].
    + now rewrite Ec, E.
    + exact I.
  - exact I.
  - now rewrite Ec.
Qed.

(** X1. [removeItem] is idempotent: removing the same id a second time gives
    back the very cart the first removal produced. *)
Theorem removeItem_idempotent (itemId : ObjectId) (c : Cart) :
  removeItem itemId (removeItem itemId c) = removeItem itemId c.
Proof.
  apply removeItem_stable.
  - apply removeItem_consistent.
  - rewrite filter_negb_eqb, removeItem_items, <- !filter_negb_eqb.
    apply list_filter_twice.
  - apply removeItem_keeps_applicable.
Qed.

(** ** Coupon round trip *)

Lemma removeCoupon_after_applyCoupon (couponData : Coupon)
    (discountCalculation : DiscountResult) (c : Cart) :
  totalsConsistent c -> coupon c = None ->
  removeCoupon (applyCoupon couponData discountCalculation c) = c.
Proof.
  intros Hc Hn.
  transitivity (calculateFinalTotal c); [|now apply calculateFinalTotal_fixed].
  destruct c; simpl in *; subst; reflexivity.
Qed.

(** X2. Applying a coupon and removing it again restores a cart that had
    consistent totals and no coupon: the discount is back to 0 and the final
    total to the subtotal. *)
Theorem applyCoupon_removeCoupon_roundtrip (couponData : Coupon)
    (discountCalculation : DiscountResult) (c : Cart) :
  totalsConsistent c -> coupon c = None ->
  removeCoupon (applyCoupon couponData discountCalculation c) = c
  /\ totalDiscount (removeCoupon (applyCoupon couponData discountCalculation c)) = Some 0
  /\ finalTotal (removeCoupon (applyCoupon couponData discountCalculation c))
     = Fin (Z.max 0 (subtotal c)).
Proof.
  intros Hc Hn.
  pose proof (removeCoupon_after_applyCoupon couponData discountCalculation c Hc Hn) as E.
  split; [exact E|]. rewrite E.
  destruct Hc as (_ & Ht & Hf & _). rewrite Hn in Ht. rewrite Ht in Hf.
  split; [exact Ht|]. now rewrite Hf, Z.sub_0_r.
Qed.

Lemma applyCoupon_removeCoupon_roundtrip_witness :
  removeCoupon (applyCoupon save20 (DObject 179 897 [fernItem 3])
                  (calculateFinalTotal
                     (setItems [fernItem 3] (newCart None (Some "guest-1")))))
  = calculateFinalTotal (setItems [fernItem 3] (newCart None (Some "guest-1"))).
Proof.
  apply (applyCoupon_removeCoupon_roundtrip save20 (DObject 179 897 [fernItem 3])).
  - apply calculateFinalTotal_consistent.
  - reflexivity.
Defined.

(** ** Ownership *)

Lemma removeItem_owner (itemId : ObjectId) (c : Cart) :
  userId (removeItem itemId c) = userId c
  /\ sessionId (removeItem itemId c) = sessionId c
  /\ cartCurrency (removeItem itemId c) = cartCurrency c.
Proof.
  unfold removeItem.
  set (c2 := calculateFinalTotal _).
  assert (H : userId c2 = userId c /\ sessionId c2 = sessionId c
              /\ cartCurrency c2 = cartCurrency c) by (repeat split).
  clearbody c2.
  destruct (coupon c2) as [cp|], (items c2) as [|it r]; try exact H.
  destruct (negb _); exact H.
Qed.

(** X3. No operation of the engine changes whose cart it is, nor its
    currency; so clearing a cart gives the same result whatever was done to
    it before. *)
Theorem engine_keeps_owner (op : EngineOp) (c : Cart) :
  userId (runOp op c) = userId c
  /\ sessionId (runOp op c) = sessionId c
  /\ cartCurrency (runOp op c) = cartCurrency c
  /\ clearCart (runOp op c) = clearCart c.
Proof.
  assert (H : userId (runOp op c) = userId c
              /\ sessionId (runOp op c) = sessionId c
              /\ cartCurrency (runOp op c) = cartCurrency c).
  { destruct op as [p q pr i|i q|i| |cd dc| |[o|]]; simpl; try (repeat split; fail).
    - unfold updateItemQuantity. destruct (q <=? 0); [apply removeItem_owner|].
      destruct (_ >? _); repeat split.
    - apply removeItem_owner. }
  destruct H as (Hu & Hs & Hcur). repeat split; try assumption.
  unfold clearCart, calculateFinalTotal, calculateSubtotal, setCoupon, setItems; simpl.
  now rewrite Hu, Hs, Hcur.
Qed.

(** ** Adding an item *)



(** ** Counting items *)

Lemma fold_left_quantityTotal (l : list CartItem) (a : Z) :
  fold_left (fun total item => total + quantity item) l a = a + quantityTotal l.
Proof.
  revert a; induction l as [|it r IH]; intros a; simpl; [lia|]. rewrite IH. lia.
Qed.

Lemma itemCount_quantityTotal (c : Cart) : itemCount c = quantityTotal (items c).
Proof. unfold itemCount. now rewrite fold_left_quantityTotal. Qed.

Lemma quantityTotal_app (l1 l2 : list CartItem) :
  quantityTotal (l1 ++ l2) = quantityTotal l1 + quantityTotal l2.
Proof. induction l1 as [|it r IH]; simpl; lia. Qed.

Lemma mergeItem_quantityTotal (l : list CartItem) (other : CartItem) :
  quantityTotal (mergeItem l other) = quantityTotal l + quantity other.
Proof.
  unfold mergeItem.
  destruct (findIndex_cases
              (fun item => String.eqb (productId item) (productId other)) l)
    as [[-> _]|(l1 & x & l2 & -> & _ & _ & ->)].
  - change (-1 >? -1) with false. cbv iota. rewrite quantityTotal_app. simpl. lia.
  - replace (Z.of_nat (length l1) >? -1) with true by (symmetry; apply Z.gtb_lt; lia).
    rewrite Nat2Z.id, alter_middle, !quantityTotal_app. simpl. lia.
Qed.

Lemma fold_mergeItem_quantityTotal (others l : list CartItem) :
  quantityTotal (fold_left mergeItem others l) = quantityTotal l + quantityTotal others.
Proof.
  revert l; induction others as [|o r IH]; intros l; simpl; [lia|].
  rewrite IH, mergeItem_quantityTotal. lia.
Qed.

(** X5. The item count (the sum of the quantities) is additive: [addItem]
    raises it by the quantity added, and [mergeWith] gives the sum of the
    counts of the two carts, so a merge loses no unit and invents none. *)
Theorem itemCount_additive (productData : Product) (qty price : Z) (newId : ObjectId)
    (c otherCart : Cart) :
  itemCount (addItem productData qty price newId c) = itemCount c + qty
  /\ itemCount (mergeWith (Some otherCart) c) = itemCount c + itemCount otherCart.
Proof.
  rewrite !itemCount_quantityTotal. split.
  - unfold addItem. rewrite calculateFinalTotal_items. cbn [items setItems].
    destruct (findIndex_cases
                (fun item => String.eqb (productId item) (p_id productData)) (items c))
      as [[-> _]|(l1 & x & l2 & -> & _ & _ & ->)].
    + change (-1 >? -1) with false. cbv iota. rewrite quantityTotal_app. simpl. lia.
    + replace (Z.of_nat (length l1) >? -1) with true by (symmetry; apply Z.gtb_lt; lia).
      rewrite Nat2Z.id, alter_middle, !quantityTotal_app. simpl. lia.
  - simpl. apply fold_mergeItem_quantityTotal.
Qed.

(** ** One line per product *)







(** * Further properties of the coupon and product models *)

(** X7. [isApplicableToProducts] asks for one match at least: it holds
    exactly when some product id of the list is among the coupon's applicable
    products.  An empty list, or a coupon without products, never matches. *)
Theorem isApplicableToProducts_at_least_one (cp : Coupon) (productIds : list ObjectId) :
  (isApplicableToProducts cp productIds = true
   <-> exists pid, pid ∈ productIds /\ pid ∈ c_applicableProducts cp)
  /\ isApplicableToProducts cp [] = false
  /\ (c_applicableProducts cp = [] -> isApplicableToProducts cp productIds = false).
Proof.
  assert (H : isApplicableToProducts cp productIds = true
              <-> exists pid, pid ∈ productIds /\ pid ∈ c_applicableProducts cp).
  { unfold isApplicableToProducts. rewrite existsb_exists. split.
    - intros (pid & Hin & Hinc). exists pid.
      split; [now apply list_elem_of_In | now apply includes_elem_of].
    - intros (pid & Hin & Hinc). exists pid.
      split; [now apply list_elem_of_In | now apply includes_elem_of]. }
  split; [exact H|]. split; [reflexivity|].
  intros E. apply not_true_is_false. intros Ea.
  apply H in Ea as (pid & _ & Hin). rewrite E in Hin. now apply elem_of_nil in Hin.
Qed.

Lemma applicableItemsOf_twice (ids : list ObjectId) (l : list CartItem) :
  applicableItemsOf ids (applicableItemsOf ids l) = applicableItemsOf ids l.
Proof.
  unfold applicableItemsOf. induction l as [|it r IH]; [reflexivity|].
  destruct (decide (productId it ∈ ids)).
  - rewrite !filter_cons_True by assumption. now rewrite IH.
  - now rewrite filter_cons_False by assumption.
Qed.

(** X9. [calculateDiscount] looks at the applicable items only: dropping
    every other item from the list leaves its result, the collected items
    included, as it was. *)
Theorem calculateDiscount_applicable_only (cp : Coupon) (now : Z) (cartItems : list CartItem) :
  calculateDiscount cp now (applicableItemsOf (c_applicableProducts cp) cartItems)
  = calculateDiscount cp now cartItems.
Proof.
  unfold calculateDiscount. now rewrite !fold_discountStep, applicableItemsOf_twice.
Qed.

(** X10. When [validateStock] refuses a request for a product of which the
    cart holds no more than the stock, the [maxAllowed] it reports is less
    than what was asked for, and asking for that much instead passes. *)
Theorem validateStock_maxAllowed_passes (product : Product)
    (requestedQuantity existingQuantity maxAllowed : Z) (message : string) :
  existingQuantity <= p_stock product ->
  validateStock product requestedQuantity existingQuantity = StockInvalid maxAllowed message ->
  maxAllowed = p_stock product - existingQuantity
  /\ 0 <= maxAllowed < requestedQuantity
  /\ validateStock product maxAllowed existingQuantity = StockValid.
Proof.
  unfold validateStock. intros He.
  destruct (p_isActive product); cbn [negb]; [|discriminate].
  destruct (existingQuantity + requestedQuantity >? p_stock product) eqn:E; [|discriminate].
  intros [= <- _]. apply Z.gtb_lt in E.
  rewrite Z.max_r by lia. repeat split; try lia.
  destruct (_ >? _) eqn:E'; [apply Z.gtb_lt in E'; lia | reflexivity].
Qed.

Lemma validateStock_maxAllowed_passes_witness :
  1 = 3 - 2 /\ 0 <= 1 < 2 /\ validateStock scarceFern 1 2 = StockValid.
Proof.
  apply (validateStock_maxAllowed_passes scarceFern 2 2 1
           "Only 3 units available for Fern. You already have 2 in cart.").
  - simpl. lia.
  - reflexivity.
Defined.

(** X11. [reduceStock] goes through exactly when [isInStock] holds for that
    quantity; the stock it leaves is never negative and only the stock
    changes; and two reductions in a row amount to one reduction by the sum. *)
Theorem reduceStock_never_negative (p : Product) (a b : Z) :
  (isInStock p (Some a) = true <-> exists p1, reduceStock p a = inl p1)
  /\ (forall p1, reduceStock p a = inl p1 ->
        0 <= p_stock p1 /\ p_stock p1 = p_stock p - a
        /\ setStock (p_stock p) p1 = p
        /\ forall p2, reduceStock p1 b = inl p2 -> reduceStock p (a + b) = inl p2).
Proof.
  unfold isInStock, reduceStock. split.
  - destruct (p_stock p >=? a); split; eauto; try discriminate.
    intros (p1 & H). discriminate.
  - intros p1. destruct (p_stock p >=? a) eqn:E; [|discriminate].
    intros [= <-]. apply Z.geb_le in E. simpl.
    split; [lia|]. split; [reflexivity|]. split; [now destruct p|].
    intros p2. destruct (p_stock p - a >=? b) eqn:E'; [|discriminate].
    intros [= <-]. apply Z.geb_le in E'.
    rewrite (proj2 (Z.geb_le _ _)) by lia.
    unfold setStock. simpl. do 2 f_equal. lia.
Qed.

(** * Further properties of the cart controller *)

(** ** Finding the cart of a request *)

Lemma nonEmpty_Some (s : option string) (v : string) :
  nonEmpty s = Some v <-> s = Some v /\ v <> "".
Proof.
  destruct s as [x|]; simpl; [|split; [discriminate | intros [H _]; discriminate]].
  destruct (String.eqb_spec x "") as [E|E]; split.
  - discriminate.
  - intros [[= ->] H]. contradiction.
  - intros [= ->]. now split.
  - now intros [[= ->] _].
Qed.

Lemma fieldIs_true (field : option string) (v : string) :
  fieldIs field v = true <-> field = Some v.
Proof.
  destruct field as [x|]; simpl; [|split; discriminate].
  rewrite String.eqb_eq. split; [now intros -> | now intros [= ->]].
Qed.

(** X12. [getOrCreateCart] answers with a cart of the identity asked for,
    the user id going before the session id: a stored cart of that identity
    when there is one, and a fresh empty cart only when there is none.  It
    throws exactly when both the user id and the session id are missing or
    empty. *)
Theorem getOrCreateCart_owner (carts : list Cart) (reqUserId : option ObjectId)
    (reqSessionId : option string) :
  (CartHandlers.getOrCreateCart carts reqUserId reqSessionId = None
   <-> nonEmpty reqUserId = None /\ nonEmpty reqSessionId = None)
  /\ forall cart,
       CartHandlers.getOrCreateCart carts reqUserId reqSessionId = Some cart ->
       (exists u, nonEmpty reqUserId = Some u /\ userId cart = Some u
                  /\ (cart ∈ carts
                      \/ (cart = newCart (Some u) None
                          /\ forall c, c ∈ carts -> userId c <> Some u)))
       \/ (nonEmpty reqUserId = None
           /\ exists s, nonEmpty reqSessionId = Some s /\ sessionId cart = Some s
                        /\ (cart ∈ carts
                            \/ (cart = newCart None (Some s)
                                /\ forall c, c ∈ carts -> sessionId c <> Some s))).
Proof.
  unfold CartHandlers.getOrCreateCart. split.
  - destruct (nonEmpty reqUserId); [split; [discriminate | intros [H _]; discriminate]|].
    destruct (nonEmpty reqSessionId); [split; [discriminate | intros [_ H]; discriminate]|].
    now split.
  - intros cart. destruct (nonEmpty reqUserId) as [u|].
    + intros [= <-]. left. exists u. split; [reflexivity|].
      destruct (List.find _ carts) as [c|] eqn:E.
      * apply find_some in E as [Hin Hf]. apply fieldIs_true in Hf.
        split; [assumption|]. left. now apply list_elem_of_In.
      * split; [reflexivity|]. right. split; [reflexivity|].
        intros c Hc Hu. apply list_elem_of_In in Hc.
        apply (find_none _ _ E) in Hc. apply fieldIs_true in Hu. simpl in Hc. congruence.
    + destruct (nonEmpty reqSessionId) as [s|]; [|discriminate].
      intros [= <-]. right. split; [reflexivity|]. exists s. split; [reflexivity|].
      destruct (List.find _ carts) as [c|] eqn:E.
      * apply find_some in E as [Hin Hf]. apply fieldIs_true in Hf.
        split; [assumption|]. left. now apply list_elem_of_In.
      * split; [reflexivity|]. right. split; [reflexivity|].
        intros c Hc Hu. apply list_elem_of_In in Hc.
        apply (find_none _ _ E) in Hc. apply fieldIs_true in Hu. simpl in Hc. congruence.
Qed.

(** ** Carts as the handlers load them *)

Lemma setItems_items (c : Cart) : setItems (items c) c = c.
Proof. now destruct c. Qed.

Lemma populate_stored (products : list Product) (cart : Cart) :
  stored (CartController.populate products cart) = cart.
Proof.
  unfold stored, CartController.populate. cbn [lines header].
  rewrite List.map_map. cbn [CartController.populateLine line_item].
  rewrite List.map_id. apply setItems_items.
Qed.

Lemma populate_items (products : list Product) (cart : Cart) :
  map line_item (lines (CartController.populate products cart)) = items cart.
Proof.
  unfold CartController.populate. cbn [lines].
  rewrite List.map_map. cbn [CartController.populateLine line_item]. apply List.map_id.
Qed.

Lemma populate_populated (products : list Product) (cart : Cart) :
  Forall populated (lines (CartController.populate products cart)).
Proof.
  unfold CartController.populate. cbn [lines].
  induction (items cart) as [|it r IH]; cbn [map]; constructor; [|exact IH].
  unfold populated, CartController.populateLine. cbn [line_ref].
  destruct (CartController.findById products (productId it)); discriminate.
Qed.

Lemma refEquals_populated (id : ObjectId) (l : Line) (b : bool) :
  populated l -> refEquals id l = Done b -> b = false.
Proof.
  unfold populated, refEquals. destruct (line_ref l); intros H E;
    [contradiction | now injection E | discriminate].
Qed.

Lemma refIncluded_populated (ids : list ObjectId) (l : Line) (b : bool) :
  populated l -> refIncluded ids l = Done b -> b = false.
Proof.
  unfold populated, refIncluded. destruct (line_ref l); intros H E;
    [contradiction | now injection E | discriminate].
Qed.

(** A search whose test never answers [true] finds nothing, unless it throws. *)
Lemma findE_never {A} (p : A -> Exc bool) (l : list A) (r : option A) :
  Forall (fun x => forall b, p x = Done b -> b = false) l ->
  findE p l = Done r -> r = None.
Proof.
  induction 1 as [|x l Hx _ IH]; cbn [findE]; [now intros [= <-]|].
  destruct (p x) as [b|e] eqn:E; cbn [bindE]; [|discriminate].
  rewrite (Hx b eq_refl). exact IH.
Qed.

Lemma findIndexFromE_never {A} (p : A -> Exc bool) (l : list A) (i j : Z) :
  Forall (fun x => forall b, p x = Done b -> b = false) l ->
  findIndexFromE p l i = Done j -> j = -1.
Proof.
  intros H; revert i; induction H as [|x l Hx _ IH]; intros i; cbn [findIndexFromE];
    [now intros [= <-]|].
  destruct (p x) as [b|e] eqn:E; cbn [bindE]; [|discriminate].
  rewrite (Hx b eq_refl). apply IH.
Qed.

Lemma someE_never {A} (p : A -> Exc bool) (l : list A) (b : bool) :
  Forall (fun x => forall b, p x = Done b -> b = false) l ->
  someE p l = Done b -> b = false.
Proof.
  induction 1 as [|x l Hx _ IH]; cbn [someE]; [now intros [= <-]|].
  destruct (p x) as [c|e] eqn:E; cbn [bindE]; [|discriminate].
  rewrite (Hx c eq_refl). exact IH.
Qed.

Lemma foldE_app {A B} (f : B -> A -> Exc B) (l1 l2 : list A) (acc : B) :
  foldE f (l1 ++ l2) acc = bindE (foldE f l1 acc) (foldE f l2).
Proof.
  revert acc; induction l1 as [|x r IH]; intros acc; cbn [foldE app bindE]; [reflexivity|].
  destruct (f acc x); cbn [bindE]; [apply IH | reflexivity].
Qed.

Lemma never_refEquals (id : ObjectId) (ls : list Line) :
  Forall populated ls ->
  Forall (fun l => forall b, refEquals id l = Done b -> b = false) ls.
Proof.
  intros H. eapply Forall_impl; [exact H|]. intros l Hl b. now apply refEquals_populated.
Qed.

Lemma never_refIncluded (ids : list ObjectId) (ls : list Line) :
  Forall populated ls ->
  Forall (fun l => forall b, refIncluded ids l = Done b -> b = false) ls.
Proof.
  intros H. eapply Forall_impl; [exact H|]. intros l Hl b. now apply refIncluded_populated.
Qed.

(** The loop of [calculateDiscount] passes over populated lines. *)
Lemma foldE_discountStep_populated (ids : list ObjectId) (ls : list Line)
    (acc acc' : Z * list CartItem) :
  Forall populated ls ->
  foldE (InMemory.discountStep ids) ls acc = Done acc' -> acc' = acc.
Proof.
  induction 1 as [|l ls Hl _ IH]; cbn [foldE]; [now intros [= <-]|].
  unfold InMemory.discountStep at 1.
  destruct (refIncluded ids l) as [b|e] eqn:E; cbn [bindE]; [|discriminate].
  rewrite (refIncluded_populated _ _ _ Hl E). exact IH.
Qed.

(** Over a cart as the handlers load it, [calculateDiscount] answers with
    the number [0], and [isApplicableToProducts] with [false]. *)
Lemma calculateDiscount_populated (cp : Coupon) (now : Z) (ls : list Line)
    (d : DiscountResult) :
  Forall populated ls -> InMemory.calculateDiscount cp now ls = Done d -> d = DZero.
Proof.
  intros H. unfold InMemory.calculateDiscount.
  destruct (negb (isValid cp now)); [now intros [= <-]|].
  destruct (foldE _ ls (0, [])) as [acc|e] eqn:E; cbn [bindE]; [|discriminate].
  rewrite (foldE_discountStep_populated _ _ _ _ H E). cbn. now intros [= <-].
Qed.

Lemma isApplicableToProducts_populated (cp : Coupon) (ls : list Line) (b : bool) :
  Forall populated ls -> InMemory.isApplicableToProducts cp ls = Done b -> b = false.
Proof. intros H. apply someE_never. now apply never_refIncluded. Qed.

(** After [addItem] has pushed a line onto such a cart, the discount is that
    of the pushed line alone. *)
Lemma calculateDiscount_pushed (cp : Coupon) (now : Z) (ls : list Line) (it : CartItem)
    (d : DiscountResult) :
  Forall populated ls ->
  InMemory.calculateDiscount cp now (ls ++ [mkLine it Unpopulated]) = Done d ->
  d = calculateDiscount cp now [it].
Proof.
  intros H. unfold InMemory.calculateDiscount, calculateDiscount.
  destruct (negb (isValid cp now)); [now intros [= <-]|].
  rewrite foldE_app.
  destruct (foldE _ ls (0, [])) as [acc|e] eqn:E; cbn [bindE]; [|discriminate].
  rewrite (foldE_discountStep_populated _ _ _ _ H E).
  cbn [foldE fold_left]. unfold InMemory.discountStep, discountStep, refIncluded.
  cbn [line_ref line_item bindE].
  destruct (includes _ _); cbn [bindE fst snd]; destruct (_ =? 0); now intros [= <-].
Qed.

Lemma stored_calculateFinalTotal (m : MemCart) :
  stored (InMemory.calculateFinalTotal m) = calculateFinalTotal (stored m).
Proof. exact (setItems_items (calculateFinalTotal (stored m))). Qed.

Lemma stored_applyCoupon (cp : Coupon) (d : DiscountResult) (m : MemCart) :
  stored (InMemory.applyCoupon cp d m) = applyCoupon cp d (stored m).
Proof. exact (setItems_items (applyCoupon cp d (stored m))). Qed.

Lemma stored_removeCoupon (m : MemCart) :
  stored (InMemory.removeCoupon m) = removeCoupon (stored m).
Proof. exact (setItems_items (removeCoupon (stored m))). Qed.

Lemma save_stored (m : MemCart) (c : Cart) :
  save m = Done c -> c = stored m /\ validates c = true.
Proof.
  unfold save. destruct (validates (stored m)) eqn:E; [|discriminate].
  intros [= <-]. now split.
Qed.

(** A cart that passes the validators has a final total that is a number;
    when it comes out of [calculateFinalTotal], its totals obey the recompute
    rule. *)
Lemma validates_exact (c : Cart) :
  validates (calculateFinalTotal c) = true -> totalsExact (calculateFinalTotal c).
Proof.
  intros Hv. apply calculateFinalTotal_exact. intros cp Hcp.
  unfold validates in Hv. rewrite calculateFinalTotal_coupon, Hcp in Hv.
  apply andb_prop in Hv as [Hv _]. apply andb_prop in Hv as [Hv _].
  apply andb_prop in Hv as [_ Hv]. unfold validCoupon in Hv.
  apply andb_prop in Hv as [_ Hv].
  destruct (discountAmount cp) as [d|]; [now exists d | discriminate].
Qed.

Lemma findById_id (products : list Product) (id : ObjectId) (p : Product) :
  CartController.findById products id = Some p -> p_id p = id.
Proof.
  unfold CartController.findById. intros H. apply find_some in H as [_ H].
  now apply String.eqb_eq in H.
Qed.

(** ** Adding to a stored cart *)

Lemma addItem_populated (productData : Product) (qty price : Z) (newId : ObjectId)
    (m m1 : MemCart) :
  Forall populated (lines m) ->
  InMemory.addItem productData qty price newId m = Done m1 ->
  m1 = InMemory.calculateFinalTotal
         (mkMem (lines m ++ [mkLine (newLineOf productData qty price newId) Unpopulated])
                (header m)).
Proof.
  intros H. unfold InMemory.addItem.
  destruct (findIndexE _ (lines m)) as [i|e] eqn:E; cbn [bindE]; [|discriminate].
  apply findIndexFromE_never in E; [|now apply never_refEquals]. subst i.
  cbn. now intros [= <-].
Qed.

Lemma revalidateAfterAdd_cases (coupons : list Coupon) (now : Z) (pid : ObjectId)
    (m m2 : MemCart) :
  CartController.revalidateAfterAdd coupons now pid m = Done m2 ->
  m2 = m \/ m2 = InMemory.removeCoupon m
  \/ exists cp d, m2 = InMemory.applyCoupon cp d m.
Proof.
  unfold CartController.revalidateAfterAdd.
  destruct (coupon (header m)) as [applied|]; [|intros [= <-]; now left].
  destruct (CartController.findOne coupons (code applied)) as [cp|];
    [|intros [= <-]; right; now left].
  destruct (_ || _); [intros [= <-]; right; now left|].
  destruct (InMemory.calculateDiscount cp now (lines m)) as [d|e]; cbn [bindE];
    [|discriminate].
  intros [= <-]. right. right. now exists cp, d.
Qed.

Lemma revalidateAfterAdd_lines (coupons : list Coupon) (now : Z) (pid : ObjectId)
    (m m2 : MemCart) :
  CartController.revalidateAfterAdd coupons now pid m = Done m2 -> lines m2 = lines m.
Proof.
  intros H. apply revalidateAfterAdd_cases in H as [->|[->|(cp & d & ->)]]; reflexivity.
Qed.

(** X13. Whenever [addToCart] saves the cart, the request was for at least
    one unit and at most the stock of a product that exists and is on sale,
    and the saved cart holds the lines of the stored cart followed by one new
    line of the requested quantity at the product's price: a line the cart
    already holds for the product is never raised, and the request is
    answered with [Item added to cart]. *)
Theorem addToCart_appends_line (isValidObjectId : string -> bool)
    (products : list Product) (coupons : list Coupon) (now : Z)
    (pid : ObjectId) (reqQuantity : option Z) (newId : ObjectId) (cart cart' : Cart) :
  saved (CartController.addToCart isValidObjectId products coupons now (Some pid)
           reqQuantity newId cart) = Some cart' ->
  exists product,
    CartController.findById products pid = Some product
    /\ p_isActive product = true
    /\ 1 <= match reqQuantity with Some q => q | None => 1 end <= p_stock product
    /\ items cart'
       = items cart
         ++ [newLineOf product (match reqQuantity with Some q => q | None => 1 end)
               (p_price product) newId]
    /\ response (CartController.addToCart isValidObjectId products coupons now (Some pid)
                   reqQuantity newId cart)
       = Success (Some "Item added to cart") cart' None None.
Proof.
  unfold CartController.addToCart.
  set (qty := match reqQuantity with Some q => q | None => 1 end).
  destruct (String.eqb pid ""); [discriminate|].
  destruct (isValidObjectId pid); [|discriminate]. cbn [negb].
  destruct (qty <? 1) eqn:Eq; [discriminate|]. apply Z.ltb_ge in Eq.
  destruct (CartController.findById products pid) as [product|] eqn:Ef; [|discriminate].
  pose proof (populate_populated products cart) as Hpop.
  destruct (findE _ _) as [r|e] eqn:Er; cbn [bindE attempt]; [|discriminate].
  apply findE_never in Er; [|now apply never_refEquals]. subst r.
  unfold validateStock.
  destruct (p_isActive product) eqn:Ea; [|discriminate]. cbn [negb].
  destruct (0 + qty >? p_stock product) eqn:Es; [discriminate|].
  destruct (InMemory.addItem _ _ _ _ _) as [m1|e] eqn:E1; cbn [bindE]; [|discriminate].
  apply addItem_populated in E1; [|exact Hpop].
  destruct (CartController.revalidateAfterAdd _ _ _ m1) as [m2|e] eqn:E2; cbn [bindE];
    [|discriminate].
  apply revalidateAfterAdd_lines in E2.
  destruct (save m2) as [savedCart|e] eqn:E3; cbn [bindE saved response]; [|discriminate].
  intros [= <-]. apply save_stored in E3 as [-> _].
  exists product. split; [reflexivity|]. split; [exact Ea|].
  split; [destruct (Z.gtb_spec (0 + qty) (p_stock product)); [discriminate | lia]|].
  split; [|reflexivity].
  unfold stored. cbn [items setItems]. rewrite E2, E1. cbn [lines InMemory.calculateFinalTotal].
  rewrite List.map_app, populate_items. reflexivity.
Qed.

Lemma addToCart_appends_line_witness :
  exists product,
    CartController.findById [scarceFern] "p-fern" = Some product
    /\ p_isActive product = true
    /\ 1 <= 2 <= p_stock product
    /\ items (calculateFinalTotal
                (setItems [fernItem 2; newLineOf scarceFern 2 299 "i-new"] twoFerns))
       = items twoFerns ++ [newLineOf product 2 (p_price product) "i-new"]
    /\ response (CartController.addToCart (fun _ => true) [scarceFern] [] 1500
                   (Some "p-fern") (Some 2) "i-new" twoFerns)
       = Success (Some "Item added to cart")
           (calculateFinalTotal
              (setItems [fernItem 2; newLineOf scarceFern 2 299 "i-new"] twoFerns))
           None None.
Proof.
  apply (addToCart_appends_line (fun _ => true) [scarceFern] [] 1500 "p-fern" (Some 2)
           "i-new" twoFerns
           (calculateFinalTotal
              (setItems [fernItem 2; newLineOf scarceFern 2 299 "i-new"] twoFerns))).
  vm_compute. reflexivity.
Defined.

(** ** Updating and removing a line *)

Lemma find_findIndex {A} (p : A -> bool) (l : list A) (x : A) :
  List.find p l = Some x ->
  exists l1 l2, l = l1 ++ x :: l2 /\ Forall (fun y => p y = false) l1 /\ p x = true
                /\ findIndex p l = Z.of_nat (length l1).
Proof.
  intros Hf.
  destruct (findIndex_cases p l) as [[_ Hnone]|(l1 & y & l2 & -> & Hnone & Hy & E)].
  - apply find_some in Hf as [Hin Hp]. rewrite Forall_forall in Hnone.
    apply list_elem_of_In, Hnone in Hin. congruence.
  - assert (x = y) as ->.
    { clear E. induction l1 as [|z r IH]; simpl in Hf.
      - rewrite Hy in Hf. congruence.
      - apply Forall_cons in Hnone as [Hz Hr]. rewrite Hz in Hf. auto. }
    now exists l1, l2.
Qed.

Lemma findIndexFrom_middle {A} (p : A -> bool) (l1 : list A) (x : A) (l2 : list A) (i : Z) :
  Forall (fun y => p y = false) l1 -> p x = true ->
  findIndexFrom p (l1 ++ x :: l2) i = i + Z.of_nat (length l1).
Proof.
  intros Hn Hx. revert i; induction Hn as [|a r Ha _ IH]; intros i; simpl.
  - rewrite Hx. lia.
  - rewrite Ha, IH. lia.
Qed.

Lemma findIndex_middle {A} (p : A -> bool) (l1 : list A) (x : A) (l2 : list A) :
  Forall (fun y => p y = false) l1 -> p x = true ->
  findIndex p (l1 ++ x :: l2) = Z.of_nat (length l1).
Proof. intros Hn Hx. unfold findIndex. now rewrite findIndexFrom_middle. Qed.

Lemma gtb_length (n : nat) : (Z.of_nat n >? -1) = true.
Proof. apply Z.gtb_lt. lia. Qed.

(** [cart.items.id(itemId)] on the loaded cart finds the line of the stored
    item of that id. *)
Lemma find_populate (products : list Product) (itemId : string) (l : list CartItem) :
  List.find (fun l => String.eqb (_id (line_item l)) itemId)
            (map (CartController.populateLine products) l)
  = option_map (CartController.populateLine products)
               (List.find (fun it => String.eqb (_id it) itemId) l).
Proof.
  induction l as [|it r IH]; [reflexivity|]. cbn [map List.find].
  cbn [CartController.populateLine line_item].
  destruct (String.eqb (_id it) itemId); [reflexivity | exact IH].
Qed.

Lemma findByRef_populateLine (products : list Product) (it : CartItem) :
  CartController.findByRef products (CartController.populateLine products it)
  = CartController.findById products (productId it).
Proof.
  unfold CartController.findByRef, CartController.populateLine. cbn [line_ref line_item].
  destruct (CartController.findById products (productId it)); reflexivity.
Qed.

Lemma map_filter_line_item (itemId : ObjectId) (ls : list Line) :
  map line_item (List.filter (fun l => negb (String.eqb (_id (line_item l)) itemId)) ls)
  = List.filter (fun it => negb (String.eqb (_id it) itemId)) (map line_item ls).
Proof.
  induction ls as [|l r IH]; [reflexivity|]. cbn [List.filter map].
  destruct (negb _); cbn [map]; now rewrite IH.
Qed.

(** [removeItem] on a loaded cart: when it does not throw, no coupon is
    left. *)
Lemma removeItem_populated (itemId : ObjectId) (m m1 : MemCart) :
  Forall populated (lines m) ->
  InMemory.removeItem itemId m = Done m1 ->
  lines m1 = List.filter (fun l => negb (String.eqb (_id (line_item l)) itemId)) (lines m)
  /\ coupon (stored m1) = None
  /\ totalsExact (stored m1).
Proof.
  intros Hpop. unfold InMemory.removeItem.
  assert (Hls : Forall populated
                  (List.filter (fun l => negb (String.eqb (_id (line_item l)) itemId))
                               (lines m))).
  { apply Forall_forall. intros l Hl. rewrite Forall_forall in Hpop.
    apply Hpop. apply list_elem_of_In in Hl. apply filter_In in Hl as [Hl _].
    now apply list_elem_of_In. }
  revert Hls. generalize (List.filter (fun l => negb (String.eqb (_id (line_item l)) itemId))
                                      (lines m)).
  intros ls Hls.
  assert (Hdrop : forall m0, lines m0 = ls ->
            lines (InMemory.calculateFinalTotal (InMemory.setCoupon None m0)) = ls
            /\ coupon (stored (InMemory.calculateFinalTotal
                                 (InMemory.setCoupon None m0))) = None
            /\ totalsExact (stored (InMemory.calculateFinalTotal
                                      (InMemory.setCoupon None m0)))).
  { intros m0 H0. split; [exact H0|]. split; [reflexivity|].
    rewrite stored_calculateFinalTotal. apply calculateFinalTotal_exact. discriminate. }
  cbn [lines header InMemory.calculateFinalTotal].
  destruct (coupon (calculateFinalTotal (stored (mkMem ls (header m))))) as [cp|] eqn:Ec.
  - destruct ls as [|l r]; [intros [= <-]; now apply Hdrop|].
    destruct (someE _ (l :: r)) as [b|e] eqn:Es; cbn [bindE]; [|discriminate].
    apply someE_never in Es.
    + subst b. cbn [negb]. intros [= <-]. now apply Hdrop.
    + eapply Forall_impl; [exact Hls|]. intros x Hx b' Hb'.
      apply someE_never in Hb'; [exact Hb'|].
      apply Forall_forall. intros pid _ b''. now apply refEquals_populated.
  - destruct ls as [|l r]; [intros [= <-]; now apply Hdrop|].
    intros [= <-]. split; [reflexivity|]. split; [exact Ec|].
    rewrite (stored_calculateFinalTotal (mkMem (l :: r) (header m))).
    apply calculateFinalTotal_exact. intros cp Hcp.
    rewrite calculateFinalTotal_coupon in Ec. congruence.
Qed.

(** The coupon revalidation of [updateCartItem] on a loaded cart: when it
    does not throw, no coupon is left. *)
Lemma revalidateAfterUpdate_populated (coupons : list Coupon) (now : Z) (m m2 : MemCart) :
  Forall populated (lines m) ->
  (lines m = [] -> coupon (header m) = None) ->
  (coupon (header m) = None -> totalsExact (stored m)) ->
  CartHandlers.revalidateAfterUpdate coupons now m = Done m2 ->
  lines m2 = lines m /\ coupon (stored m2) = None /\ totalsExact (stored m2).
Proof.
  intros Hpop Hempty Hex. unfold CartHandlers.revalidateAfterUpdate.
  assert (Hdrop : lines (InMemory.removeCoupon m) = lines m
                  /\ coupon (stored (InMemory.removeCoupon m)) = None
                  /\ totalsExact (stored (InMemory.removeCoupon m))).
  { split; [reflexivity|]. split; [reflexivity|].
    rewrite stored_removeCoupon. apply calculateFinalTotal_exact. discriminate. }
  destruct (coupon (header m)) as [applied|] eqn:Ec.
  - destruct (lines m) as [|l r] eqn:El; [now specialize (Hempty eq_refl)|].
    rewrite <- El in *.
    destruct (CartController.findOne coupons (code applied)) as [cp|];
      [|intros [= <-]; exact Hdrop].
    destruct (isValid cp now); [|intros [= <-]; exact Hdrop].
    destruct (InMemory.calculateDiscount cp now (lines m)) as [d|e] eqn:Ed; cbn [bindE];
      [|discriminate].
    apply calculateDiscount_populated in Ed; [|exact Hpop]. subst d.
    cbn [discountAmountOf gt0]. intros [= <-]. exact Hdrop.
  - assert (E : Done m = Done m2 ->
                lines m2 = lines m /\ coupon (stored m2) = None /\ totalsExact (stored m2)).
    { intros [= <-]. split; [reflexivity|]. split; [exact Ec | exact (Hex eq_refl)]. }
    destruct (lines m); exact E.
Qed.

Lemma setLineQuantity_populated (q : Z) (ls : list Line) (i : nat) :
  Forall populated ls -> Forall populated (alter (setLineQuantity q) i ls).
Proof.
  intros H. revert i; induction H as [|l r Hl Hr IH]; intros i; [constructor|].
  destruct i; cbn; constructor; [exact Hl | exact Hr | exact Hl | apply IH].
Qed.

(** What [updateCartItem] hands to [save()]. *)
Lemma updateCartItem_saved (isValidObjectId : string -> bool)
    (products : list Product) (coupons : list Coupon) (now : Z)
    (itemId : string) (qty : Z) (cart cart' : Cart) :
  saved (CartHandlers.updateCartItem isValidObjectId products coupons now itemId qty cart)
  = Some cart' ->
  coupon cart' = None /\ totalsExact cart'
  /\ ((qty = 0
       /\ items cart' = List.filter (fun it => negb (String.eqb (_id it) itemId)) (items cart))
      \/ (0 < qty
          /\ exists l1 item l2 product,
               items cart = l1 ++ item :: l2
               /\ Forall (fun it => _id it <> itemId) l1 /\ _id item = itemId
               /\ CartController.findById products (productId item) = Some product
               /\ p_isActive product = true /\ qty <= p_stock product
               /\ items cart' = l1 ++ setQuantity qty item :: l2)).
Proof.
  unfold CartHandlers.updateCartItem.
  destruct (isValidObjectId itemId); [|discriminate]. cbn [negb].
  destruct (qty <? 0) eqn:Eneg; [discriminate|]. apply Z.ltb_ge in Eneg.
  pose proof (populate_populated products cart) as Hpop.
  pose proof (populate_items products cart) as Hitems.
  set (m := CartController.populate products cart) in *.
  destruct (List.find _ (lines m)) as [line|] eqn:Ef; [|discriminate].
  unfold attempt.
  destruct (Z.eqb_spec qty 0) as [E0|E0].
  - destruct (InMemory.removeItem itemId m) as [m1|e] eqn:E1; cbn [bindE]; [|discriminate].
    apply removeItem_populated in E1 as (Hl & Hc & Hex); [|exact Hpop].
    destruct (CartHandlers.revalidateAfterUpdate coupons now m1) as [m2|e] eqn:E2;
      cbn [bindE]; [|discriminate].
    apply revalidateAfterUpdate_populated in E2 as (Hl2 & Hc2 & Hex2);
      [| rewrite Hl; apply Forall_forall; intros l Hin; rewrite Forall_forall in Hpop;
         apply Hpop; apply list_elem_of_In in Hin; apply filter_In in Hin as [Hin _];
         now apply list_elem_of_In
       | intros _; exact Hc | intros _; exact Hex].
    destruct (save m2) as [savedCart|e] eqn:E3; cbn [bindE saved]; [|discriminate].
    intros [= <-]. apply save_stored in E3 as [-> _].
    split; [exact Hc2|]. split; [exact Hex2|]. left. split; [exact E0|].
    unfold stored at 1. cbn [items setItems].
    now rewrite Hl2, Hl, map_filter_line_item, Hitems.
  - destruct (CartController.findByRef products line) as [product|] eqn:Ep; [|discriminate].
    unfold validateStock.
    destruct (p_isActive product) eqn:Ea; [|discriminate]. cbn [negb].
    destruct (Z.gtb_spec (qty + 0) (p_stock product)) as [Es|Es]; [discriminate|].
    rewrite Z.min_l by lia.
    unfold InMemory.updateItemQuantity.
    rewrite (proj2 (Z.leb_gt _ _)) by lia.
    pose proof Ef as Ef'.
    apply find_findIndex in Ef as (k1 & k2 & Hk & Hnone & Hline & ->).
    rewrite gtb_length, Nat2Z.id. cbn [bindE].
    set (m1 := InMemory.calculateFinalTotal _).
    assert (Hl1 : lines m1 = k1 ++ setLineQuantity qty line :: k2).
    { unfold m1. cbn [lines InMemory.calculateFinalTotal]. now rewrite Hk, alter_middle. }
    destruct (CartHandlers.revalidateAfterUpdate coupons now m1) as [m2|e] eqn:E2;
      cbn [bindE]; [|discriminate].
    apply revalidateAfterUpdate_populated in E2 as (Hl2 & Hc2 & Hex2).
    + destruct (save m2) as [savedCart|e] eqn:E3; cbn [bindE saved]; [|discriminate].
      intros [= <-]. apply save_stored in E3 as [-> _].
      split; [exact Hc2|]. split; [exact Hex2|]. right. split; [lia|].
      unfold m in Ef'. cbn [lines CartController.populate] in Ef'.
      rewrite find_populate in Ef'.
      destruct (List.find _ (items cart)) as [item|] eqn:Ei; [|discriminate].
      injection Ef' as <-. rewrite findByRef_populateLine in Ep.
      exists (map line_item k1), item, (map line_item k2), product.
      assert (Hcart : items cart = map line_item k1 ++ item :: map line_item k2).
      { rewrite <- Hitems, Hk, List.map_app. reflexivity. }
      split; [exact Hcart|].
      split; [apply Forall_forall; intros it Hit;
              apply list_elem_of_fmap in Hit as (l & -> & Hl);
              rewrite Forall_forall in Hnone; apply Hnone in Hl;
              now apply String.eqb_neq in Hl|].
      split; [apply String.eqb_eq; exact Hline|].
      split; [exact Ep|]. split; [exact Ea|]. split; [lia|].
      unfold stored at 1. cbn [items setItems]. rewrite Hl2, Hl1, List.map_app. reflexivity.
    + unfold m1. cbn [lines InMemory.calculateFinalTotal].
      now apply setLineQuantity_populated.
    + rewrite Hl1. intros Habs. symmetry in Habs. now apply app_cons_not_nil in Habs.
    + intros Hnone1. unfold m1. rewrite stored_calculateFinalTotal.
      apply calculateFinalTotal_exact. intros cp Hcp.
      change (coupon (header m1) = Some cp) in Hcp. congruence.
Qed.

(** X14. Whenever [updateCartItem] saves the cart, the saved cart carries no
    coupon, whatever coupon the stored cart carried, and its totals obey the
    recompute rule: the recomputed discount of a loaded cart is never above
    0, so the revalidation removes the coupon. *)
Theorem updateCartItem_saves_without_coupon (isValidObjectId : string -> bool)
    (products : list Product) (coupons : list Coupon) (now : Z)
    (itemId : string) (qty : Z) (cart cart' : Cart) :
  saved (CartHandlers.updateCartItem isValidObjectId products coupons now itemId qty cart)
  = Some cart' ->
  coupon cart' = None /\ totalsExact cart'.
Proof.
  intros H. apply updateCartItem_saved in H as (Hc & Hex & _). now split.
Qed.

Lemma updateCartItem_saves_without_coupon_witness :
  coupon (calculateFinalTotal (setItems [fernItem 2] (newCart None (Some "guest-1")))) = None
  /\ totalsExact (calculateFinalTotal (setItems [fernItem 2] (newCart None (Some "guest-1")))).
Proof.
  apply (updateCartItem_saves_without_coupon (fun _ => true) [fern] [save20] 1500
           "i-fern" 2 threeFernsSaved).
  vm_compute. reflexivity.
Defined.

(** X15. When the new quantity is above the stock, [updateCartItem] refuses
    the request and saves nothing; the [maxAllowed] it reports is 0, whatever
    the stock is. *)
Theorem updateCartItem_over_stock (isValidObjectId : string -> bool)
    (products : list Product) (coupons : list Coupon) (now : Z)
    (itemId : string) (qty : Z) (cart : Cart) (item : CartItem) (product : Product) :
  isValidObjectId itemId = true ->
  List.find (fun it => String.eqb (_id it) itemId) (items cart) = Some item ->
  CartController.findById products (productId item) = Some product ->
  p_isActive product = true ->
  0 < qty -> p_stock product < qty ->
  saved (CartHandlers.updateCartItem isValidObjectId products coupons now itemId qty cart)
  = None
  /\ exists message,
       response (CartHandlers.updateCartItem isValidObjectId products coupons now itemId
                   qty cart)
       = Failure 400 message (Some 0) None.
Proof.
  intros Hv Hf Hp Ha Hq Hs. unfold CartHandlers.updateCartItem.
  rewrite Hv. cbn [negb lines CartController.populate].
  rewrite find_populate, Hf. cbn [option_map].
  rewrite findByRef_populateLine, Hp.
  rewrite (proj2 (Z.ltb_ge _ _)) by lia.
  rewrite (proj2 (Z.eqb_neq _ _)) by lia.
  unfold validateStock. rewrite Ha. cbn [negb].
  rewrite (proj2 (Z.gtb_lt _ _)) by lia.
  rewrite Z.max_l by lia.
  split; [reflexivity | eexists; reflexivity].
Qed.

Lemma updateCartItem_over_stock_witness :
  saved (CartHandlers.updateCartItem (fun _ => true) [scarceFern] [] 1500 "i-fern" 5 twoFerns)
  = None
  /\ exists message,
       response (CartHandlers.updateCartItem (fun _ => true) [scarceFern] [] 1500 "i-fern"
                   5 twoFerns)
       = Failure 400 message (Some 0) None.
Proof.
  apply (updateCartItem_over_stock (fun _ => true) [scarceFern] [] 1500 "i-fern" 5
           twoFerns (fernItem 2) scarceFern); try reflexivity.
Defined.

(** X16. [removeCartItem] refuses an id the cart does not hold and saves
    nothing.  Whenever it saves the cart, the saved cart holds the items of
    the stored cart without those of that id, in their order; it carries no
    coupon, whatever coupon the stored cart carried; its totals obey the
    recompute rule; and the same request sent again is refused as not
    found. *)
Theorem removeCartItem_then_not_found (isValidObjectId : string -> bool)
    (products : list Product) (itemId : string) (cart : Cart) :
  isValidObjectId itemId = true ->
  ((forall it, it ∈ items cart -> _id it <> itemId) ->
   CartHandlers.removeCartItem isValidObjectId products itemId cart
   = reject 404 "Cart item not found")
  /\ (forall cart',
        saved (CartHandlers.removeCartItem isValidObjectId products itemId cart)
        = Some cart' ->
        items cart' = filter (fun it => _id it <> itemId) (items cart)
        /\ coupon cart' = None
        /\ totalsExact cart'
        /\ CartHandlers.removeCartItem isValidObjectId products itemId cart'
           = reject 404 "Cart item not found").
Proof.
  intros Hv.
  assert (Hnone : forall c, (forall it, it ∈ items c -> _id it <> itemId) ->
                            CartHandlers.removeCartItem isValidObjectId products itemId c
                            = reject 404 "Cart item not found").
  { intros c H. unfold CartHandlers.removeCartItem. rewrite Hv.
    cbn [negb lines CartController.populate]. rewrite find_populate.
    destruct (List.find _ (items c)) as [x|] eqn:E; [|reflexivity].
    apply find_some in E as [Hin Hx]. apply String.eqb_eq in Hx.
    apply list_elem_of_In in Hin. now apply H in Hin. }
  split; [apply Hnone|].
  intros cart'. unfold CartHandlers.removeCartItem at 1. rewrite Hv. cbn [negb].
  pose proof (populate_populated products cart) as Hpop.
  pose proof (populate_items products cart) as Hitems.
  destruct (List.find _ (lines (CartController.populate products cart))); [|discriminate].
  unfold attempt.
  destruct (InMemory.removeItem itemId _) as [m1|e] eqn:E1; cbn [bindE]; [|discriminate].
  apply removeItem_populated in E1 as (Hl & Hc & Hex); [|exact Hpop].
  destruct (save m1) as [savedCart|e] eqn:E3; cbn [bindE saved]; [|discriminate].
  intros [= <-]. apply save_stored in E3 as [-> _].
  assert (Hi : items (stored m1) = filter (fun it => _id it <> itemId) (items cart)).
  { unfold stored. cbn [items setItems].
    rewrite Hl, map_filter_line_item, Hitems. apply filter_negb_eqb. }
  split; [exact Hi|]. split; [exact Hc|]. split; [exact Hex|].
  apply Hnone. intros y Hy. rewrite Hi in Hy.
  now apply list_elem_of_filter in Hy as [Hy _].
Qed.

Lemma removeCartItem_then_not_found_witness :
  let cart' := calculateFinalTotal (setItems [cactusItem 1] (newCart None (Some "guest-1"))) in
  items cart' = filter (fun it => _id it <> "i-fern") (items fernAndCactusSaved)
  /\ coupon cart' = None
  /\ totalsExact cart'
  /\ CartHandlers.removeCartItem (fun _ => true) [fern; cactus] "i-fern" cart'
     = reject 404 "Cart item not found".
Proof.
  intros cart'.
  apply (removeCartItem_then_not_found (fun _ => true) [fern; cactus] "i-fern"
           fernAndCactusSaved eq_refl).
  vm_compute. reflexivity.
Defined.

(** A line of a deleted product makes [removeItem] throw when it looks for a
    line the coupon applies to: the request ends in the 500 answer. *)
Example removeCartItem_deleted_product :
  CartHandlers.removeCartItem (fun _ => true) [cactus] "i-cactus" fernAndCactusSaved
  = mkOutcome (Failure 500 "Failed to remove cart item" None (Some TypeError)) None.
Proof. evaluated. Qed.

(** ** Coupon handlers *)

(** X17. The [applyCoupon] handler never saves the cart and never answers
    with success: the lines of the cart it loads are populated, so no coupon
    is found applicable to them. *)
Theorem applyCoupon_never_saves (products : list Product) (coupons : list Coupon)
    (now : Z) (reqCode : option string) (cart : Cart) :
  saved (CartController.applyCoupon products coupons now reqCode cart) = None
  /\ exists status message error,
       response (CartController.applyCoupon products coupons now reqCode cart)
       = Failure status message None error.
Proof.
  unfold CartController.applyCoupon.
  destruct reqCode as [code|]; [|split; [reflexivity | now eexists _, _, _]].
  destruct (String.eqb code ""); [split; [reflexivity | now eexists _, _, _]|].
  pose proof (populate_populated products cart) as Hpop.
  destruct (lines (CartController.populate products cart)) as [|l r] eqn:El;
    [split; [reflexivity | now eexists _, _, _]|].
  rewrite <- El in *. cbn [attempt].
  destruct (CartController.findOne coupons (toUpperCase code)) as [cp|];
    [|split; [reflexivity | now eexists _, _, _]].
  destruct (isValid cp now); cbn [negb]; [|split; [reflexivity | now eexists _, _, _]].
  destruct (InMemory.isApplicableToProducts cp _) as [b|e] eqn:Eb; cbn [bindE attempt];
    [|split; [reflexivity | now eexists _, _, _]].
  apply isApplicableToProducts_populated in Eb; [|exact Hpop]. subst b.
  split; [reflexivity | now eexists _, _, _].
Qed.

(** ** What a read leaves in the cart *)

Lemma setQuantity_same (it : CartItem) : setQuantity (quantity it) it = it.
Proof. now destruct it. Qed.

Lemma populateLine_populated (products : list Product) (it : CartItem) :
  populated (CartController.populateLine products it).
Proof.
  unfold populated, CartController.populateLine. cbn [line_ref].
  destruct (CartController.findById products (productId it)); discriminate.
Qed.

Lemma getCartStep_kept (products : list Product) (original : list CartItem)
    (v : list Line) (r : list RemovedItem) (item : CartItem) :
  item ∈ original ->
  Forall (fun k => populated k /\ keptOnRead products original (line_item k)) v ->
  Forall (fun k => populated k /\ keptOnRead products original (line_item k))
         (fst (CartController.getCartStep products (v, r)
                 (CartController.populateLine products item))).
Proof.
  intros Hin Hv. unfold CartController.getCartStep.
  rewrite findByRef_populateLine. cbn [line_item CartController.populateLine].
  destruct (CartController.findById products (productId item)) as [p|] eqn:Ef; [|exact Hv].
  destruct (p_isActive p) eqn:Ea; cbn [negb]; [|exact Hv].
  destruct (quantity item >? p_stock p) eqn:Eq.
  - apply Z.gtb_lt in Eq. destruct (p_stock p >? 0); [|exact Hv].
    cbn [fst]. apply Forall_app. split; [exact Hv|]. apply Forall_singleton.
    split; [exact (populateLine_populated products item)|].
    exists item, p. repeat split; try assumption. cbn [line_item setLineQuantity].
    now rewrite Z.min_r by lia.
  - cbn [fst]. apply Forall_app. split; [exact Hv|]. apply Forall_singleton.
    split; [exact (populateLine_populated products item)|].
    exists item, p. repeat split; try assumption.
    destruct (Z.gtb_spec (quantity item) (p_stock p)); [discriminate|].
    rewrite Z.min_l by lia. symmetry. apply setQuantity_same.
Qed.

Lemma getCart_loop_kept (products : list Product) (original l : list CartItem)
    (acc : list Line * list RemovedItem) :
  (forall x, x ∈ l -> x ∈ original) ->
  Forall (fun k => populated k /\ keptOnRead products original (line_item k)) (fst acc) ->
  Forall (fun k => populated k /\ keptOnRead products original (line_item k))
         (fst (fold_left (CartController.getCartStep products)
                 (map (CartController.populateLine products) l) acc)).
Proof.
  revert acc; induction l as [|item r IH]; intros [v rm] Hl Hv; cbn [map fold_left];
    [exact Hv|].
  apply IH; [intros x Hx; apply Hl; now right|].
  apply getCartStep_kept; [apply Hl; left | exact Hv].
Qed.

(** A cart that passes the validators carries a coupon only with its
    discount amount. *)
Lemma validates_numeric (c : Cart) (cp : CartCoupon) :
  validates c = true -> coupon c = Some cp -> exists d, discountAmount cp = Some d.
Proof.
  intros Hv Hcp. unfold validates in Hv. rewrite Hcp in Hv.
  apply andb_prop in Hv as [Hv _]. apply andb_prop in Hv as [Hv _].
  apply andb_prop in Hv as [_ Hv]. unfold validCoupon in Hv.
  apply andb_prop in Hv as [_ Hv].
  destruct (discountAmount cp) as [d|]; [now exists d | discriminate].
Qed.

(** The coupon revalidation of [getCart] on the lines it has kept. *)
Lemma revalidateOnRead_cases (coupons : list Coupon) (now : Z) (m m1 : MemCart)
    (removedItems removedItems1 : list RemovedItem) :
  Forall populated (lines m) ->
  CartController.revalidateOnRead coupons now m removedItems = Done (m1, removedItems1) ->
  (m1 = m /\ (coupon (header m) = None \/ lines m = []))
  \/ m1 = InMemory.removeCoupon m
  \/ exists cp, m1 = InMemory.applyCoupon cp DZero m.
Proof.
  intros Hpop. unfold CartController.revalidateOnRead.
  destruct (coupon (header m)) as [applied|] eqn:Ec.
  - destruct (lines m) as [|l r] eqn:El; [intros [= <- _]; left; split; [reflexivity|now right]|].
    rewrite <- El in *.
    destruct (CartController.findOne coupons (code applied)) as [cp|];
      [|intros [= <- _]; right; now left].
    destruct (isValid cp now); cbn [negb]; [|intros [= <- _]; right; now left].
    destruct (InMemory.calculateDiscount cp now (lines m)) as [d|e] eqn:Ed; cbn [bindE];
      [|discriminate].
    apply calculateDiscount_populated in Ed; [|exact Hpop]. subst d.
    cbn [discountAmountOf strictEq0]. intros [= <- _]. right. right. now exists cp.
  - assert (E : Done (m, removedItems) = Done (m1, removedItems1) ->
                (m1 = m /\ (@None CartCoupon = None \/ lines m = []))
                \/ m1 = InMemory.removeCoupon m
                \/ exists cp, m1 = InMemory.applyCoupon cp DZero m).
    { intros [= <- _]. left. split; [reflexivity | now left]. }
    destruct (lines m); exact E.
Qed.

(** X18. Whenever [getCart] saves the cart, it answers with that cart; its
    totals obey the recompute rule; every item in it is an item of the
    stored cart, of a product that exists and is on sale, with its quantity
    lowered to the stock when it was above, so that no item is left with more
    than the stock; and it carries no coupon unless it is empty. *)
Theorem getCart_keeps_only_available (products : list Product) (coupons : list Coupon)
    (now : Z) (cart cart' : Cart) :
  saved (CartController.getCart products coupons now cart) = Some cart' ->
  (exists removedItems,
     response (CartController.getCart products coupons now cart)
     = Success None cart' removedItems None)
  /\ totalsExact cart'
  /\ Forall (keptOnRead products (items cart)) (items cart')
  /\ (forall it p,
        it ∈ items cart' ->
        CartController.findById products (productId it) = Some p ->
        p_isActive p = true /\ quantity it <= p_stock p)
  /\ (items cart' <> [] -> coupon cart' = None).
Proof.
  unfold CartController.getCart.
  pose proof (getCart_loop_kept products (items cart) (items cart) ([], [])
                (fun x H => H) (Forall_nil_2 _)) as Hloop.
  cbn [lines CartController.populate header].
  destruct (fold_left (CartController.getCartStep products)
              (map (CartController.populateLine products) (items cart)) ([], []))
    as [validItems removedItems].
  cbn [fst] in Hloop. unfold attempt.
  destruct (CartController.revalidateOnRead coupons now (mkMem validItems cart)
              removedItems) as [[cart1 removedItems1]|e] eqn:Er; cbn [bindE];
    [|discriminate].
  destruct (save (InMemory.calculateFinalTotal cart1)) as [savedCart|e] eqn:Es;
    cbn [bindE saved response]; [|discriminate].
  intros [= <-]. apply save_stored in Es as [-> Hval].
  rewrite stored_calculateFinalTotal in *.
  assert (Hpop : Forall populated validItems).
  { eapply Forall_impl; [exact Hloop|]. now intros k [Hk _]. }
  assert (Hkept : Forall (keptOnRead products (items cart)) (map line_item validItems)).
  { apply Forall_fmap. eapply Forall_impl; [exact Hloop|]. now intros k [_ Hk]. }
  apply revalidateOnRead_cases in Er; [|exact Hpop]. cbn [lines header] in Er.
  assert (Hitems : items (calculateFinalTotal (stored cart1)) = map line_item validItems).
  { destruct Er as [[-> _]|[->|(cp & ->)]]; reflexivity. }
  split; [eexists; reflexivity|].
  split; [now apply validates_exact|].
  rewrite Hitems. split; [exact Hkept|]. split.
  - intros it p Hin Hf. rewrite Forall_forall in Hkept.
    destruct (Hkept it Hin) as (orig & p' & _ & Hf' & Ha & ->).
    cbn [productId setQuantity] in Hf. rewrite Hf' in Hf. injection Hf as <-.
    split; [exact Ha|]. cbn [quantity setQuantity]. lia.
  - intros Hne. destruct Er as [[-> [Hc|Hl]]|[->|(cp & ->)]].
    + exact Hc.
    + subst validItems. now contradiction Hne.
    + reflexivity.
    + destruct (validates_numeric _ _ Hval eq_refl) as (d & Hd). discriminate.
Qed.

Lemma getCart_keeps_only_available_witness :
  let cart := setItems [fernItem 7; cactusItem 2] (newCart None (Some "guest-1")) in
  let cart' := calculateFinalTotal
                 (setItems [fernItem 5; cactusItem 2] (newCart None (Some "guest-1"))) in
  (exists removedItems,
     response (CartController.getCart [fern; cactus] [] 1500 cart)
     = Success None cart' removedItems None)
  /\ totalsExact cart'
  /\ Forall (keptOnRead [fern; cactus] (items cart)) (items cart')
  /\ (forall it p,
        it ∈ items cart' ->
        CartController.findById [fern; cactus] (productId it) = Some p ->
        p_isActive p = true /\ quantity it <= p_stock p)
  /\ (items cart' <> [] -> coupon cart' = None).
Proof.
  intros cart cart'.
  apply (getCart_keeps_only_available [fern; cactus] [] 1500 cart cart').
  vm_compute. reflexivity.
Defined.

(** ** Merging the guest cart *)

Lemma getOrCreateCart_user (carts : list Cart) (reqUserId : option ObjectId) (cart : Cart) :
  CartHandlers.getOrCreateCart carts reqUserId None = Some cart ->
  exists u, nonEmpty reqUserId = Some u /\ userId cart = Some u.
Proof.
  unfold CartHandlers.getOrCreateCart.
  destruct (nonEmpty reqUserId) as [u|]; [|discriminate].
  intros [= <-]. exists u. split; [reflexivity|].
  destruct (List.find _ carts) as [c|] eqn:E; [|reflexivity].
  apply find_some in E as [_ Hf]. now apply fieldIs_true in Hf.
Qed.

(** The search of [mergeWith] passes over the populated lines of the user
    cart and goes on among the lines pushed from the guest cart. *)
Lemma findIndexFromE_populated_prefix (id : ObjectId) (us rest : list Line) (i j : Z) :
  Forall populated us ->
  findIndexFromE (refEquals id) (us ++ rest) i = Done j ->
  findIndexFromE (refEquals id) rest (i + Z.of_nat (length us)) = Done j.
Proof.
  intros H; revert i; induction H as [|l us Hl _ IH]; intros i.
  - cbn [app length]. now rewrite Z.add_0_r.
  - cbn [app findIndexFromE length].
    destruct (refEquals id l) as [b|e] eqn:E; cbn [bindE]; [|discriminate].
    rewrite (refEquals_populated _ _ _ Hl E). intros H. apply IH in H.
    now replace (i + Z.of_nat (S (length us))) with (i + 1 + Z.of_nat (length us)) by lia.
Qed.

Lemma findIndexFromE_unpopulated (id : ObjectId) (acc : list CartItem) (i : Z) :
  findIndexFromE (refEquals id) (map (fun it => mkLine it Unpopulated) acc) i
  = Done (findIndexFrom (fun it => String.eqb (productId it) id) acc i).
Proof.
  revert i; induction acc as [|x r IH]; intros i; [reflexivity|].
  cbn [map findIndexFromE findIndexFrom]. unfold refEquals at 1.
  cbn [line_ref line_item bindE].
  destruct (String.eqb (productId x) id); [reflexivity | apply IH].
Qed.

Lemma mergeItem_after_populated (us : list Line) (acc : list CartItem) (g : CartItem)
    (ls' : list Line) :
  Forall populated us ->
  InMemory.mergeItem (us ++ map (fun it => mkLine it Unpopulated) acc) g = Done ls' ->
  ls' = us ++ map (fun it => mkLine it Unpopulated) (mergeItem acc g).
Proof.
  intros Hus. unfold InMemory.mergeItem, mergeItem, findIndexE.
  destruct (findIndexFromE _ _ 0) as [j|e] eqn:E; cbn [bindE]; [|discriminate].
  apply findIndexFromE_populated_prefix in E; [|exact Hus].
  rewrite findIndexFromE_unpopulated in E. injection E as <-.
  destruct (findIndex_cases (fun it => String.eqb (productId it) (productId g)) acc)
    as [[E0 Hnone]|(l1 & x & l2 & -> & Hnone & Hx & E0)].
  - rewrite E0. rewrite (proj2 (findIndexFrom_none _ acc (0 + Z.of_nat (length us))
                                  ltac:(lia)) Hnone).
    cbn. intros [= <-]. now rewrite List.map_app, app_assoc.
  - rewrite E0, findIndexFrom_middle by assumption. rewrite gtb_length.
    replace (0 + Z.of_nat (length us) + Z.of_nat (length l1) >? -1) with true
      by (symmetry; apply Z.gtb_lt; lia).
    intros [= <-].
    replace (Z.to_nat (0 + Z.of_nat (length us) + Z.of_nat (length l1)))
      with (length (us ++ map (fun it => mkLine it Unpopulated) l1))
      by (rewrite length_app, length_map; lia).
    rewrite Nat2Z.id, alter_middle, List.map_app. cbn [map].
    rewrite app_assoc, alter_middle, <- app_assoc, List.map_app. reflexivity.
Qed.

Lemma foldE_mergeItem_populated (us : list Line) (gs acc : list CartItem)
    (ls' : list Line) :
  Forall populated us ->
  foldE InMemory.mergeItem gs (us ++ map (fun it => mkLine it Unpopulated) acc) = Done ls' ->
  ls' = us ++ map (fun it => mkLine it Unpopulated) (fold_left mergeItem gs acc).
Proof.
  intros Hus. revert acc; induction gs as [|g r IH]; intros acc; cbn [foldE fold_left].
  - now intros [= <-].
  - destruct (InMemory.mergeItem _ g) as [ls1|e] eqn:E; cbn [bindE]; [|discriminate].
    apply mergeItem_after_populated in E; [|exact Hus]. subst ls1. apply IH.
Qed.

(** On the lines of a merged cart the closing loop of [mergeCart] is the cap
    of the stored items. *)
Lemma capByStock_populateLine (products : list Product) (it : CartItem) :
  line_item (CartHandlers.capByStock products (CartController.populateLine products it))
  = capItem products it.
Proof.
  unfold CartHandlers.capByStock, capItem. rewrite findByRef_populateLine.
  destruct (CartController.findById products (productId it)); reflexivity.
Qed.

Lemma capByStock_unpopulated (products : list Product) (it : CartItem) :
  line_item (CartHandlers.capByStock products (mkLine it Unpopulated)) = capItem products it.
Proof.
  unfold CartHandlers.capByStock, capItem, CartController.findByRef.
  cbn [line_ref line_item].
  destruct (CartController.findById products (productId it)); reflexivity.
Qed.

Lemma capItem_within (products : list Product) (item : CartItem) (p : Product) :
  CartController.findById products (productId (capItem products item)) = Some p ->
  quantity (capItem products item) <= p_stock p.
Proof.
  unfold capItem.
  destruct (CartController.findById products (productId item)) as [q|] eqn:E.
  - cbn [productId quantity setQuantity]. rewrite E. intros [= <-]. lia.
  - rewrite E. discriminate.
Qed.

(** The one path on which [mergeCart] saves. *)
Lemma mergeCart_saved (products : list Product) (carts : list Cart)
    (guestSessionId : option string) (reqUserId : option ObjectId) (cart' : Cart) :
  m_saved (CartHandlers.mergeCart products carts guestSessionId reqUserId) = Some cart' ->
  exists g guestCart userCart,
    nonEmpty guestSessionId = Some g
    /\ List.find (fun c => fieldIs (sessionId c) g) carts = Some guestCart
    /\ items guestCart <> []
    /\ CartHandlers.getOrCreateCart carts reqUserId None = Some userCart
    /\ cart' = setItems
                 (map (capItem products)
                    (items userCart
                     ++ fold_left mergeItem
                          (fold_left (CartHandlers.pruneGuestStep products)
                                     (items guestCart) []) []))
                 (calculateFinalTotal
                    (setItems
                       (items userCart
                        ++ fold_left mergeItem
                             (fold_left (CartHandlers.pruneGuestStep products)
                                        (items guestCart) []) [])
                       (setCoupon None userCart)))
    /\ CartHandlers.mergeCart products carts guestSessionId reqUserId
       = mkMergeOutcome (Success (Some "Carts merged successfully") cart' None None)
                        (Some cart') (Some guestCart).
Proof.
  unfold CartHandlers.mergeCart.
  destruct (nonEmpty guestSessionId) as [g|]; [|discriminate].
  destruct (List.find _ carts) as [guestCart|] eqn:Ef;
    [|destruct (CartHandlers.getOrCreateCart carts reqUserId None); discriminate].
  destruct (items guestCart) as [|it r] eqn:Ei;
    [destruct (CartHandlers.getOrCreateCart carts reqUserId None); discriminate|].
  rewrite <- Ei.
  destruct (CartHandlers.getOrCreateCart carts reqUserId None) as [userCart|] eqn:Eu;
    [|discriminate].
  unfold InMemory.mergeWith. cbn [items setItems].
  set (gs := fold_left (CartHandlers.pruneGuestStep products) (items guestCart) []).
  pose proof (populate_populated products userCart) as Hpop.
  pose proof (foldE_mergeItem_populated
                (lines (CartController.populate products userCart)) gs []) as Hfold.
  cbn [map] in Hfold. rewrite app_nil_r in Hfold.
  destruct (foldE InMemory.mergeItem gs _) as [ls'|e] eqn:E; cbn [bindE];
    [|discriminate].
  specialize (Hfold ls' Hpop eq_refl). subst ls'.
  destruct (save _) as [savedCart|e] eqn:Es; cbn [m_saved]; [|discriminate].
  intros [= <-]. apply save_stored in Es as [-> _].
  exists g, guestCart, userCart.
  split; [reflexivity|]. split; [exact Ef|]. split; [rewrite Ei; discriminate|].
  split; [reflexivity|]. split; [|reflexivity].
  set (merged := fold_left mergeItem gs []).
  assert (Hmap : map line_item
                   (map (CartController.populateLine products) (items userCart)
                    ++ map (fun it => mkLine it Unpopulated) merged)
                 = items userCart ++ merged).
  { rewrite List.map_app, !List.map_map. cbn [CartController.populateLine line_item].
    now rewrite !List.map_id. }
  assert (Hcap : map line_item
                   (map (CartHandlers.capByStock products)
                      (map (CartController.populateLine products) (items userCart)
                       ++ map (fun it => mkLine it Unpopulated) merged))
                 = map (capItem products) (items userCart ++ merged)).
  { rewrite !List.map_app, !List.map_map. f_equal; apply List.map_ext; intros a.
    - apply capByStock_populateLine.
    - apply capByStock_unpopulated. }
  unfold stored, InMemory.calculateFinalTotal, InMemory.setCoupon, stored.
  cbn [lines header CartController.populate].
  now rewrite Hcap, Hmap.
Qed.

(** X19. Whenever [mergeCart] saves a cart, it is the cart of the user,
    without a coupon, in which no item of a product that exists holds more
    than the stock; every item of the stored user cart keeps its line, the
    items of the guest cart coming after them; and the guest cart it deletes
    is the stored, non-empty cart of the guest session. *)
Theorem mergeCart_caps_by_stock (products : list Product) (carts : list Cart)
    (guestSessionId : option string) (reqUserId : option ObjectId) (cart' : Cart) :
  m_saved (CartHandlers.mergeCart products carts guestSessionId reqUserId) = Some cart' ->
  coupon cart' = None
  /\ (exists u, nonEmpty reqUserId = Some u /\ userId cart' = Some u)
  /\ (forall it p,
        it ∈ items cart' ->
        CartController.findById products (productId it) = Some p ->
        quantity it <= p_stock p)
  /\ (exists userCart rest,
        CartHandlers.getOrCreateCart carts reqUserId None = Some userCart
        /\ items cart' = map (capItem products) (items userCart) ++ rest)
  /\ exists guestCart,
       m_deleted (CartHandlers.mergeCart products carts guestSessionId reqUserId)
       = Some guestCart
       /\ guestCart ∈ carts /\ items guestCart <> []
       /\ sessionId guestCart = guestSessionId.
Proof.
  intros Hs.
  destruct (mergeCart_saved _ _ _ _ _ Hs)
    as (g & guestCart & userCart & Hg & Hf & Hne & Hu & -> & ->).
  split; [reflexivity|]. split; [|split; [|split]].
  - destruct (getOrCreateCart_user carts reqUserId userCart Hu) as (u & H1 & H2).
    exists u. split; [exact H1 | exact H2].
  - intros it p Hin. cbn [items setItems] in Hin.
    apply list_elem_of_fmap in Hin as (x & -> & _). apply capItem_within.
  - exists userCart. eexists. split; [exact Hu|]. cbn [items setItems].
    rewrite List.map_app. reflexivity.
  - exists guestCart. split; [reflexivity|].
    apply find_some in Hf as [Hin Hfield].
    split; [now apply list_elem_of_In|]. split; [exact Hne|].
    apply fieldIs_true in Hfield. apply nonEmpty_Some in Hg as [-> _]. exact Hfield.
Qed.

Lemma mergeCart_caps_by_stock_witness :
  let out := CartHandlers.mergeCart [scarceFern] [guestTwoFerns; userTwoFerns]
               (Some "guest-1") (Some "u-1") in
  let cart' := setItems [fernItem 2; guestFernItem 2] (setCoupon None userTwoFerns) in
  m_saved out = Some (calculateFinalTotal cart')
  /\ coupon (calculateFinalTotal cart') = None
  /\ items (calculateFinalTotal cart') = [fernItem 2; guestFernItem 2].
Proof.
  intros out cart'. split; [vm_compute; reflexivity|].
  split; [|reflexivity].
  apply (mergeCart_caps_by_stock [scarceFern] [guestTwoFerns; userTwoFerns]
           (Some "guest-1") (Some "u-1") (calculateFinalTotal cart')).
  vm_compute. reflexivity.
Defined.

(** X20. [mergeCart] does not recompute the totals after capping the
    quantities.  The cart it saves holds the items of the user cart followed
    by those of the pruned guest cart, each capped by the stock; its
    subtotal and final total are the sum over these items before the cap, and
    so describe quantities the saved cart may no longer hold. *)
Theorem mergeCart_totals_before_cap (products : list Product) (carts : list Cart)
    (guestSessionId : option string) (reqUserId : option ObjectId) (cart' : Cart) :
  m_saved (CartHandlers.mergeCart products carts guestSessionId reqUserId) = Some cart' ->
  exists guestCart userCart,
    m_deleted (CartHandlers.mergeCart products carts guestSessionId reqUserId)
    = Some guestCart
    /\ CartHandlers.getOrCreateCart carts reqUserId None = Some userCart
    /\ items cart'
       = map (capItem products)
           (items userCart
            ++ fold_left mergeItem
                 (fold_left (CartHandlers.pruneGuestStep products) (items guestCart) []) [])
    /\ subtotal cart'
       = itemsTotal
           (items userCart
            ++ fold_left mergeItem
                 (fold_left (CartHandlers.pruneGuestStep products) (items guestCart) []) [])
    /\ totalDiscount cart' = Some 0
    /\ finalTotal cart' = Fin (Z.max 0 (subtotal cart')).
Proof.
  intros Hs.
  destruct (mergeCart_saved _ _ _ _ _ Hs)
    as (g & guestCart & userCart & _ & _ & _ & Hu & -> & ->).
  exists guestCart, userCart. split; [reflexivity|]. split; [exact Hu|].
  split; [reflexivity|].
  cbn [subtotal totalDiscount finalTotal setItems].
  rewrite calculateFinalTotal_subtotal. cbn [items setItems].
  split; [reflexivity|]. split; [reflexivity|].
  unfold calculateFinalTotal, calculateSubtotal. cbn.
  now rewrite fold_left_itemsTotal, Z.add_0_l, Z.sub_0_r.
Qed.

Lemma mergeCart_totals_before_cap_witness :
  let out := CartHandlers.mergeCart [lastFern; cactus] [guestOneCactus; userTwoFerns]
               (Some "guest-1") (Some "u-1") in
  exists cart',
    m_saved out = Some cart'
    /\ (exists guestCart userCart,
          m_deleted out = Some guestCart
          /\ CartHandlers.getOrCreateCart [guestOneCactus; userTwoFerns] (Some "u-1") None
             = Some userCart
          /\ items cart'
             = map (capItem [lastFern; cactus])
                 (items userCart
                  ++ fold_left mergeItem
                       (fold_left (CartHandlers.pruneGuestStep [lastFern; cactus])
                                  (items guestCart) []) [])
          /\ subtotal cart'
             = itemsTotal
                 (items userCart
                  ++ fold_left mergeItem
                       (fold_left (CartHandlers.pruneGuestStep [lastFern; cactus])
                                  (items guestCart) []) [])
          /\ totalDiscount cart' = Some 0
          /\ finalTotal cart' = Fin (Z.max 0 (subtotal cart')))
    /\ items cart' = [fernItem 1; cactusItem 1]
    /\ subtotal cart' = 1098
    /\ itemsTotal (items cart') = 799.
Proof.
  intros out. eexists. split; [vm_compute; reflexivity|].
  split; [|split; [|split]; reflexivity].
  apply (mergeCart_totals_before_cap [lastFern; cactus] [guestOneCactus; userTwoFerns]
           (Some "guest-1") (Some "u-1") _ eq_refl).
Defined.

(** A stored line of the user cart whose product has been deleted makes
    [mergeWith] throw: the request ends in the 500 answer, and the guest cart
    is not deleted. *)
Example mergeCart_deleted_product :
  CartHandlers.mergeCart [cactus] [guestOneCactus; userTwoFerns] (Some "guest-1")
    (Some "u-1")
  = mkMergeOutcome (Failure 500 "Failed to merge carts" None (Some TypeError)) None None.
Proof. evaluated. Qed.

(** X21. When the guest session has no stored cart, or its cart has no
    item, [mergeCart] saves nothing and deletes nothing, and answers with the
    cart of the user. *)
Theorem mergeCart_nothing_to_merge (products : list Product) (carts : list Cart)
    (g : string) (reqUserId : option ObjectId) (userCart : Cart) :
  g <> "" ->
  (List.find (fun c => fieldIs (sessionId c) g) carts = None
   \/ exists guestCart,
        List.find (fun c => fieldIs (sessionId c) g) carts = Some guestCart
        /\ items guestCart = []) ->
  CartHandlers.getOrCreateCart carts reqUserId None = Some userCart ->
  CartHandlers.mergeCart products carts (Some g) reqUserId
  = mkMergeOutcome (Success (Some "No guest cart to merge") userCart None None) None None.
Proof.
  intros Hg Hguest Hu. unfold CartHandlers.mergeCart.
  rewrite (proj2 (nonEmpty_Some (Some g) g)) by now split.
  destruct Hguest as [->|(guestCart & -> & ->)]; now rewrite Hu.
Qed.

Lemma mergeCart_nothing_to_merge_witness :
  CartHandlers.mergeCart [fern] [userTwoFerns] (Some "guest-1") (Some "u-1")
  = mkMergeOutcome (Success (Some "No guest cart to merge") userTwoFerns None None)
                   None None.
Proof.
  apply (mergeCart_nothing_to_merge [fern] [userTwoFerns] "guest-1" (Some "u-1")
           userTwoFerns).
  - discriminate.
  - left. reflexivity.
  - reflexivity.
Defined.

(** * How the operations compose *)

(** X22. Two [addItem] of the same product amount to one [addItem] of the
    summed quantity: the line keeps the id and the price of the first add,
    the price passed with the second one being ignored. *)
Theorem addItem_twice (productData : Product) (q1 q2 price1 price2 : Z)
    (id1 id2 : ObjectId) (c : Cart) :
  addItem productData q2 price2 id2 (addItem productData q1 price1 id1 c)
  = addItem productData (q1 + q2) price1 id1 c.
Proof.
  set (p := fun item => String.eqb (productId item) (p_id productData)).
  assert (E : forall q pr i l,
             items (addItem productData q pr i (setItems l c))
             = if findIndex p l >? -1
               then alter (fun it => setQuantity (quantity it + q) it)
                          (Z.to_nat (findIndex p l)) l
               else l ++ [mkItem i (p_id productData)
                            (mkSnapshot (p_title productData) (p_sku productData)
                               (match p_images productData with
                                | img :: _ => img
                                | [] => mkImage None None
                                end)
                               (p_attributes productData)) q pr "INR"])
    by reflexivity.
  assert (Hc : forall q pr i c0,
             addItem productData q pr i c0
             = calculateFinalTotal
                 (setItems (items (addItem productData q pr i (setItems (items c0) c)))
                           c0)) by reflexivity.
  rewrite (Hc q2), (Hc (q1 + q2)).
  transitivity (calculateFinalTotal
                  (setItems (items (addItem productData (q1 + q2) price1 id1
                                      (setItems (items c) c))) c));
    [|reflexivity].
  replace (items (addItem productData q2 price2 id2
                    (setItems (items (addItem productData q1 price1 id1 c)) c)))
    with (items (addItem productData (q1 + q2) price1 id1 (setItems (items c) c)));
    [reflexivity|].
  change (items (addItem productData q1 price1 id1 c))
    with (items (addItem productData q1 price1 id1 (setItems (items c) c))).
  rewrite !E.
  destruct (findIndex_cases p (items c))
    as [[E0 Hnone]|(l1 & x & l2 & El & Hnone & Hx & E0)]; rewrite E0.
  - change (-1 >? -1) with false. cbv iota.
    rewrite (findIndex_middle p (items c) _ []) by (assumption || apply String.eqb_refl).
    now rewrite gtb_length, Nat2Z.id, alter_middle.
  - rewrite !gtb_length, El, Nat2Z.id, !alter_middle.
    rewrite (findIndex_middle p l1 _ l2) by (assumption || exact Hx).
    rewrite gtb_length, Nat2Z.id, alter_middle.
    unfold setQuantity; cbn. now rewrite Z.add_assoc.
Qed.

(** X23. Of two [updateItemQuantity] of the same item with quantities of 1
    or more, the last one wins. *)
Theorem updateItemQuantity_last_wins (itemId : ObjectId) (q1 q2 : Z) (c : Cart) :
  1 <= q1 -> 1 <= q2 ->
  updateItemQuantity itemId q2 (updateItemQuantity itemId q1 c)
  = updateItemQuantity itemId q2 c.
Proof.
  intros H1 H2. unfold updateItemQuantity.
  rewrite !(proj2 (Z.leb_gt _ _)) by lia. unfold itemsId.
  set (p := fun item => String.eqb (_id item) itemId).
  destruct (findIndex_cases p (items c))
    as [[E Hnone]|(l1 & x & l2 & El & Hnone & Hx & E)]; rewrite E.
  - change (-1 >? -1) with false. cbv iota. now rewrite E.
  - rewrite gtb_length.
    cbn [items calculateFinalTotal calculateSubtotal setItems].
    rewrite El, Nat2Z.id, !alter_middle.
    rewrite (findIndex_middle p l1 _ l2) by (assumption || exact Hx).
    rewrite gtb_length, Nat2Z.id, !alter_middle.
    destruct c; reflexivity.
Qed.

Lemma updateItemQuantity_last_wins_witness :
  updateItemQuantity "i-fern" 4 (updateItemQuantity "i-fern" 2 threeFernsSaved)
  = updateItemQuantity "i-fern" 4 threeFernsSaved.
Proof. apply updateItemQuantity_last_wins; lia. Defined.

(** * Further edge behaviour *)

Lemma upperAscii_twice (a : Ascii.ascii) : upperAscii (upperAscii a) = upperAscii a.
Proof.
  destruct a as [[] [] [] [] [] [] [] []]; reflexivity.
Qed.

Lemma toUpperCase_twice (s : string) : toUpperCase (toUpperCase s) = toUpperCase s.
Proof.
  induction s as [|a r IH]; simpl; [reflexivity|]. now rewrite upperAscii_twice, IH.
Qed.

Lemma toUpperCase_empty (s : string) :
  String.eqb (toUpperCase s) "" = String.eqb s "".
Proof. destruct s; reflexivity. Qed.

(** X24. The [applyCoupon] handler does not look at the case of the code it
    is sent: the code and the code in capitals get the same outcome. *)
Theorem applyCoupon_code_case_insensitive (products : list Product)
    (coupons : list Coupon) (now : Z) (reqCode : string) (cart : Cart) :
  CartController.applyCoupon products coupons now (Some (toUpperCase reqCode)) cart
  = CartController.applyCoupon products coupons now (Some reqCode) cart.
Proof.
  unfold CartController.applyCoupon.
  now rewrite toUpperCase_empty, toUpperCase_twice.
Qed.

(** X25. Whenever [updateCartItem] saves the cart for a quantity of 1 or
    more, the quantity is at most the stock of the product of the first item
    of that id, a product that exists and is on sale; the saved cart has the
    quantity of that item set to it and every other item as it was. *)
Theorem updateCartItem_sets_quantity (isValidObjectId : string -> bool)
    (products : list Product) (coupons : list Coupon) (now : Z)
    (itemId : string) (qty : Z) (cart cart' : Cart) :
  1 <= qty ->
  saved (CartHandlers.updateCartItem isValidObjectId products coupons now itemId qty cart)
  = Some cart' ->
  exists l1 item l2 product,
    items cart = l1 ++ item :: l2
    /\ Forall (fun it => _id it <> itemId) l1 /\ _id item = itemId
    /\ CartController.findById products (productId item) = Some product
    /\ p_isActive product = true /\ qty <= p_stock product
    /\ items cart' = l1 ++ setQuantity qty item :: l2.
Proof.
  intros Hq H. apply updateCartItem_saved in H as (_ & _ & [[H0 _]|[_ H]]); [lia | exact H].
Qed.

Lemma updateCartItem_sets_quantity_witness :
  exists l1 item l2 product,
    items fernAndCactusSaved = l1 ++ item :: l2
    /\ Forall (fun it => _id it <> "i-cactus") l1 /\ _id item = "i-cactus"
    /\ CartController.findById [fern; cactus] (productId item) = Some product
    /\ p_isActive product = true /\ 3 <= p_stock product
    /\ items (calculateFinalTotal
                (setItems [fernItem 1; cactusItem 3] (newCart None (Some "guest-1"))))
       = l1 ++ setQuantity 3 item :: l2.
Proof.
  apply (updateCartItem_sets_quantity (fun _ => true) [fern; cactus] [save20] 1500
           "i-cactus" 3 fernAndCactusSaved
           (calculateFinalTotal
              (setItems [fernItem 1; cactusItem 3] (newCart None (Some "guest-1"))))).
  - lia.
  - vm_compute. reflexivity.
Defined.

(** X26. The date test of [isValid] and the [isDateValid] virtual agree: a
    valid coupon is always date-valid, and an active coupon without a usage
    cap is valid exactly when it is date-valid. *)
Theorem isValid_isDateValid (cp : Coupon) (now : Z) :
  (isValid cp now = true -> isDateValid cp now = true)
  /\ (c_isActive cp = true -> c_maxUsage cp = None ->
      isValid cp now = isDateValid cp now).
Proof.
  unfold isValid, isDateValid. split.
  - intros H. apply andb_true_iff in H as [H _]. now apply andb_true_iff in H as [_ H].
  - intros -> ->. simpl. now rewrite andb_true_r.
Qed.

(** * The coupon on a loaded cart *)

Lemma foldE_discountStep_documents (ids : list ObjectId) (ls : list Line)
    (acc : Z * list CartItem) :
  Forall (fun l => line_ref l = PopulatedDoc) ls ->
  foldE (InMemory.discountStep ids) ls acc = Done acc.
Proof.
  induction 1 as [|l ls Hl _ IH]; cbn [foldE]; [reflexivity|].
  unfold InMemory.discountStep at 1, refIncluded. rewrite Hl. cbn [bindE]. exact IH.
Qed.

Lemma calculateDiscount_documents (cp : Coupon) (now : Z) (ls : list Line) :
  Forall (fun l => line_ref l = PopulatedDoc) ls ->
  InMemory.calculateDiscount cp now ls = Done DZero.
Proof.
  intros H. unfold InMemory.calculateDiscount.
  destruct (negb (isValid cp now)); [reflexivity|].
  now rewrite foldE_discountStep_documents.
Qed.

Lemma getCartStep_documents (products : list Product) (v : list Line)
    (r : list RemovedItem) (item : CartItem) :
  Forall (fun l => line_ref l = PopulatedDoc) v ->
  Forall (fun l => line_ref l = PopulatedDoc)
         (fst (CartController.getCartStep products (v, r)
                 (CartController.populateLine products item))).
Proof.
  intros Hv. unfold CartController.getCartStep.
  rewrite findByRef_populateLine. cbn [line_item CartController.populateLine].
  destruct (CartController.findById products (productId item)) as [p|] eqn:Ef; [|exact Hv].
  destruct (negb (p_isActive p)); [exact Hv|].
  destruct (quantity item >? p_stock p); [destruct (p_stock p >? 0); [|exact Hv]|];
    cbn [fst]; apply Forall_app; (split; [exact Hv|]); apply Forall_singleton;
    unfold CartController.populateLine; cbn [line_ref setLineQuantity]; now rewrite Ef.
Qed.

Lemma getCartStep_grows (products : list Product) (acc : list Line * list RemovedItem)
    (l : Line) :
  fst acc <> [] -> fst (CartController.getCartStep products acc l) <> [].
Proof.
  destruct acc as [v r]. cbn [fst]. intros Hv. unfold CartController.getCartStep.
  assert (Happ : forall x, v ++ [x] <> []).
  { intros x E. apply app_eq_nil in E as [_ E]. discriminate. }
  destruct (CartController.findByRef products l) as [p|]; [|exact Hv].
  destruct (negb (p_isActive p)); [exact Hv|].
  destruct (quantity (line_item l) >? p_stock p);
    [destruct (p_stock p >? 0); [apply Happ | exact Hv] | apply Happ].
Qed.

Lemma getCart_loop_grows (products : list Product) (ls : list Line)
    (acc : list Line * list RemovedItem) :
  fst acc <> [] -> fst (fold_left (CartController.getCartStep products) ls acc) <> [].
Proof.
  revert acc; induction ls as [|l r IH]; intros acc H; cbn [fold_left]; [exact H|].
  apply IH. now apply getCartStep_grows.
Qed.

(** The loop of [getCart] keeps a line for an item whose product is on sale
    and in stock. *)
Lemma getCart_loop_keeps (products : list Product) (l : list CartItem)
    (acc : list Line * list RemovedItem) (it : CartItem) (p : Product) :
  it ∈ l ->
  CartController.findById products (productId it) = Some p ->
  p_isActive p = true -> 0 < p_stock p ->
  fst (fold_left (CartController.getCartStep products)
         (map (CartController.populateLine products) l) acc) <> [].
Proof.
  intros Hin Hf Ha Hs. revert acc; induction l as [|x r IH]; intros acc;
    [now apply elem_of_nil in Hin|].
  apply elem_of_cons in Hin as [<-|Hin]; cbn [map fold_left]; [|now apply IH].
  apply getCart_loop_grows. destruct acc as [v rm].
  unfold CartController.getCartStep. rewrite findByRef_populateLine, Hf, Ha.
  cbn [negb line_item CartController.populateLine].
  rewrite (proj2 (Z.gtb_lt (p_stock p) 0)) by lia.
  destruct (quantity it >? p_stock p); cbn [fst]; intros E;
    apply app_eq_nil in E as [_ E]; discriminate.
Qed.

Lemma getCart_loop_documents (products : list Product) (l : list CartItem)
    (acc : list Line * list RemovedItem) :
  Forall (fun k => line_ref k = PopulatedDoc) (fst acc) ->
  Forall (fun k => line_ref k = PopulatedDoc)
         (fst (fold_left (CartController.getCartStep products)
                 (map (CartController.populateLine products) l) acc)).
Proof.
  revert acc; induction l as [|x r IH]; intros [v rm] H; cbn [map fold_left]; [exact H|].
  apply IH. now apply getCartStep_documents.
Qed.

(** X27. When the stored cart carries a coupon that is still valid, and one
    of its items is of a product that is on sale and in stock, [getCart]
    ends in the 500 answer and saves nothing: the discount of the loaded
    cart is the number [0], which the test [discountAmount === 0] does not
    catch, and the coupon applied from it has no discount amount. *)
Theorem getCart_fails_on_live_coupon (products : list Product) (coupons : list Coupon)
    (now : Z) (cart : Cart) (applied : CartCoupon) (live : Coupon)
    (it : CartItem) (p : Product) :
  coupon cart = Some applied ->
  CartController.findOne coupons (code applied) = Some live ->
  isValid live now = true ->
  it ∈ items cart ->
  CartController.findById products (productId it) = Some p ->
  p_isActive p = true -> 0 < p_stock p ->
  CartController.getCart products coupons now cart
  = mkOutcome (Failure 500 "Failed to fetch cart" None (Some ValidationError)) None.
Proof.
  intros Hc Hlive Hvalid Hin Hf Ha Hs. unfold CartController.getCart.
  pose proof (getCart_loop_keeps products (items cart) ([], []) it p Hin Hf Ha Hs) as Hne.
  pose proof (getCart_loop_documents products (items cart) ([], []) (Forall_nil_2 _))
    as Hdoc.
  cbn [lines CartController.populate header].
  destruct (fold_left (CartController.getCartStep products)
              (map (CartController.populateLine products) (items cart)) ([], []))
    as [validItems removedItems].
  cbn [fst] in Hne, Hdoc.
  unfold CartController.revalidateOnRead. cbn [lines header]. rewrite Hc.
  destruct validItems as [|l r] eqn:El; [now contradiction Hne|]. rewrite <- El in *.
  rewrite Hlive, Hvalid. cbn [negb].
  rewrite calculateDiscount_documents by exact Hdoc.
  cbn [bindE discountAmountOf strictEq0]. unfold save.
  destruct (validates _) eqn:Hv; [|reflexivity].
  rewrite stored_calculateFinalTotal in Hv.
  destruct (validates_numeric _ _ Hv eq_refl) as (d & Hd). discriminate.
Qed.

Lemma getCart_fails_on_live_coupon_witness :
  CartController.getCart [fern; cactus] [save20] 1500 threeFernsSaved
  = mkOutcome (Failure 500 "Failed to fetch cart" None (Some ValidationError)) None.
Proof.
  apply (getCart_fails_on_live_coupon [fern; cactus] [save20] 1500 threeFernsSaved
           (mkCartCoupon "SAVE20" "percentage" 20 (Some 179) ["p-fern"]) save20
           (fernItem 3) fern); try reflexivity.
  left.
Defined.

(** X28. Whenever [addToCart] saves the cart with a coupon on it, the
    coupon is the one the stored cart carried, looked up again by its code,
    and its discount amount is the discount of the added line alone: the
    lines the stored cart holds do not count towards it. *)
Theorem addToCart_discount_of_new_line (isValidObjectId : string -> bool)
    (products : list Product) (coupons : list Coupon) (now : Z)
    (pid : ObjectId) (reqQuantity : option Z) (newId : ObjectId) (cart cart' : Cart)
    (cp' : CartCoupon) :
  saved (CartController.addToCart isValidObjectId products coupons now (Some pid)
           reqQuantity newId cart) = Some cart' ->
  coupon cart' = Some cp' ->
  exists product applied live,
    CartController.findById products pid = Some product
    /\ coupon cart = Some applied
    /\ CartController.findOne coupons (code applied) = Some live
    /\ cp' = mkCartCoupon (c_code live) (c_discountType live) (c_discountValue live)
               (discountAmountOf
                  (calculateDiscount live now
                     [newLineOf product (match reqQuantity with Some q => q | None => 1 end)
                        (p_price product) newId]))
               (c_applicableProducts live).
Proof.
  unfold CartController.addToCart.
  set (qty := match reqQuantity with Some q => q | None => 1 end).
  destruct (String.eqb pid ""); [discriminate|].
  destruct (isValidObjectId pid); [|discriminate]. cbn [negb].
  destruct (qty <? 1); [discriminate|].
  destruct (CartController.findById products pid) as [product|] eqn:Ef; [|discriminate].
  pose proof (populate_populated products cart) as Hpop.
  destruct (findE _ _) as [r|e] eqn:Er; cbn [bindE attempt]; [|discriminate].
  destruct (validateStock product qty _); try discriminate.
  destruct (InMemory.addItem _ _ _ _ _) as [m1|e] eqn:E1; cbn [bindE]; [|discriminate].
  apply addItem_populated in E1; [|exact Hpop].
  destruct (CartController.revalidateAfterAdd _ _ _ m1) as [m2|e] eqn:E2; cbn [bindE];
    [|discriminate].
  destruct (save m2) as [savedCart|e] eqn:E3; cbn [bindE saved]; [|discriminate].
  intros [= <-]. apply save_stored in E3 as [-> _].
  revert E2. unfold CartController.revalidateAfterAdd.
  assert (Hc1 : coupon (header m1) = coupon cart) by (rewrite E1; reflexivity).
  rewrite Hc1.
  destruct (coupon cart) as [applied|];
    [|intros [= <-] H; change (coupon (header m1) = Some cp') in H; congruence].
  destruct (CartController.findOne coupons (code applied)) as [live|] eqn:Elive;
    [|intros [= <-]; discriminate].
  destruct (_ || _); [intros [= <-]; discriminate|].
  destruct (InMemory.calculateDiscount live now (lines m1)) as [d|e] eqn:Ed; cbn [bindE];
    [|discriminate].
  rewrite E1 in Ed. cbn [lines InMemory.calculateFinalTotal] in Ed.
  apply calculateDiscount_pushed in Ed; [|exact Hpop]. subst d.
  intros [= <-]. intros [= <-].
  exists product, applied, live. repeat split. exact Elive.
Qed.

Lemma addToCart_discount_of_new_line_witness :
  exists product applied live,
    CartController.findById [fern; cactus] "p-fern" = Some product
    /\ coupon threeFernsSaved = Some applied
    /\ CartController.findOne [save20] (code applied) = Some live
    /\ mkCartCoupon "SAVE20" "percentage" 20 (Some 60) ["p-fern"]
       = mkCartCoupon (c_code live) (c_discountType live) (c_discountValue live)
           (discountAmountOf
              (calculateDiscount live 1500 [newLineOf product 1 (p_price product) "i-new"]))
           (c_applicableProducts live).
Proof.
  apply (addToCart_discount_of_new_line (fun _ => true) [fern; cactus] [save20] 1500
           "p-fern" (Some 1) "i-new" threeFernsSaved
           (applyCoupon save20 (DObject 60 299 [newLineOf fern 1 299 "i-new"])
              (setItems [fernItem 3; newLineOf fern 1 299 "i-new"] threeFernsSaved))).
  - vm_compute. reflexivity.
  - reflexivity.
Defined.

(** * Documents that were not populated *)

(** On a cart that was not populated, as a new cart or the guest cart of
    [mergeCart] is, the methods for documents in memory do not throw, and give
    what the methods of the first embedding give. *)

Lemma unpopulated_items (l : list CartItem) :
  map line_item (map (fun it => mkLine it Unpopulated) l) = l.
Proof. rewrite List.map_map. cbn [line_item]. apply List.map_id. Qed.

Lemma unpopulated_stored (c : Cart) : stored (unpopulated c) = c.
Proof.
  unfold stored, unpopulated. cbn [lines header].
  rewrite unpopulated_items. apply setItems_items.
Qed.

Lemma unpopulated_calculateFinalTotal (l : list CartItem) (c : Cart) :
  InMemory.calculateFinalTotal (mkMem (map (fun it => mkLine it Unpopulated) l) c)
  = unpopulated (calculateFinalTotal (setItems l c)).
Proof.
  unfold InMemory.calculateFinalTotal, unpopulated, stored. cbn [lines header].
  now rewrite unpopulated_items.
Qed.

Lemma alter_unpopulated (f : CartItem -> CartItem) (g : Line -> Line) (i : nat)
    (l : list CartItem) :
  (forall it, g (mkLine it Unpopulated) = mkLine (f it) Unpopulated) ->
  alter g i (map (fun it => mkLine it Unpopulated) l)
  = map (fun it => mkLine it Unpopulated) (alter f i l).
Proof.
  intros H. revert i; induction l as [|x r IH]; intros [|i]; cbn; try reflexivity.
  - now rewrite H.
  - f_equal. apply IH.
Qed.

Lemma someE_done {A} (p : A -> Exc bool) (q : A -> bool) (l : list A) :
  (forall x, p x = Done (q x)) -> someE p l = Done (existsb q l).
Proof.
  intros H. induction l as [|x r IH]; [reflexivity|]. cbn [someE existsb].
  rewrite H. cbn [bindE]. destruct (q x); [reflexivity | exact IH].
Qed.

Lemma someE_unpopulated (p : Line -> Exc bool) (q : CartItem -> bool) (l : list CartItem) :
  (forall it, p (mkLine it Unpopulated) = Done (q it)) ->
  someE p (map (fun it => mkLine it Unpopulated) l) = Done (existsb q l).
Proof.
  intros H. induction l as [|x r IH]; [reflexivity|]. cbn [map someE existsb].
  rewrite H. cbn [bindE]. destruct (q x); [reflexivity | exact IH].
Qed.

Lemma addItem_unpopulated (productData : Product) (qty price : Z) (newId : ObjectId)
    (c : Cart) :
  InMemory.addItem productData qty price newId (unpopulated c)
  = Done (unpopulated (addItem productData qty price newId c)).
Proof.
  unfold InMemory.addItem, addItem, findIndexE, findIndex.
  cbn [lines header unpopulated]. rewrite findIndexFromE_unpopulated. cbn [bindE].
  destruct (_ >? -1).
  - rewrite (alter_unpopulated (fun it => setQuantity (quantity it + qty) it))
      by reflexivity.
    now rewrite unpopulated_calculateFinalTotal.
  - rewrite <- (unpopulated_calculateFinalTotal (items c ++ _)).
    now rewrite List.map_app.
Qed.

Lemma removeItem_unpopulated (itemId : ObjectId) (c : Cart) :
  InMemory.removeItem itemId (unpopulated c) = Done (unpopulated (removeItem itemId c)).
Proof.
  unfold InMemory.removeItem, removeItem. cbn [lines header unpopulated].
  assert (Hf : List.filter (fun l => negb (String.eqb (_id (line_item l)) itemId))
                 (map (fun it => mkLine it Unpopulated) (items c))
               = map (fun it => mkLine it Unpopulated)
                   (List.filter (fun it => negb (String.eqb (_id it) itemId)) (items c))).
  { induction (items c) as [|x r IH]; [reflexivity|]. cbn [map List.filter line_item].
    destruct (negb _); cbn [map]; now rewrite IH. }
  rewrite Hf, unpopulated_calculateFinalTotal.
  generalize (calculateFinalTotal
                (setItems (List.filter (fun it => negb (String.eqb (_id it) itemId))
                                       (items c)) c)).
  intros c1.
  assert (Hdrop : InMemory.calculateFinalTotal (InMemory.setCoupon None (unpopulated c1))
                  = unpopulated (calculateFinalTotal (setCoupon None c1))).
  { unfold InMemory.setCoupon, unpopulated at 1. cbn [lines header].
    now rewrite unpopulated_calculateFinalTotal. }
  rewrite Hdrop.
  assert (Hsome : forall cp,
            someE (fun l1 => someE (fun pid => refEquals pid l1) (applicableProducts cp))
                  (lines (unpopulated c1))
            = Done (existsb (fun item =>
                               existsb (fun pid => String.eqb pid (productId item))
                                       (applicableProducts cp))
                            (items c1))).
  { intros cp. apply someE_unpopulated. intros it. apply someE_done. intros pid.
    unfold refEquals. cbn [line_ref line_item]. now rewrite String.eqb_sym. }
  change (coupon (header (unpopulated c1))) with (coupon c1).
  destruct (coupon c1) as [cp|].
  - rewrite Hsome. cbn [lines unpopulated].
    destruct (items c1) as [|it r]; cbn [map bindE]; [reflexivity|].
    now destruct (negb _).
  - cbn [lines unpopulated]. now destruct (items c1).
Qed.

Lemma updateItemQuantity_unpopulated (itemId : ObjectId) (newQuantity : Z) (c : Cart) :
  InMemory.updateItemQuantity itemId newQuantity (unpopulated c)
  = Done (unpopulated (updateItemQuantity itemId newQuantity c)).
Proof.
  unfold InMemory.updateItemQuantity, updateItemQuantity, itemsId.
  destruct (newQuantity <=? 0); [apply removeItem_unpopulated|].
  cbn [lines header unpopulated].
  assert (Hi : findIndex (fun l => String.eqb (_id (line_item l)) itemId)
                 (map (fun it => mkLine it Unpopulated) (items c))
               = findIndex (fun it => String.eqb (_id it) itemId) (items c)).
  { unfold findIndex. generalize 0. induction (items c) as [|x r IH]; intros i;
      [reflexivity|]. cbn [map findIndexFrom line_item].
    destruct (String.eqb (_id x) itemId); [reflexivity | apply IH]. }
  rewrite Hi. destruct (_ >? -1); [|reflexivity].
  rewrite (alter_unpopulated (setQuantity newQuantity)) by reflexivity.
  now rewrite unpopulated_calculateFinalTotal.
Qed.

Lemma mergeItem_unpopulated (acc : list CartItem) (g : CartItem) :
  InMemory.mergeItem (map (fun it => mkLine it Unpopulated) acc) g
  = Done (map (fun it => mkLine it Unpopulated) (mergeItem acc g)).
Proof.
  unfold InMemory.mergeItem, mergeItem, findIndexE, findIndex.
  rewrite findIndexFromE_unpopulated. cbn [bindE].
  destruct (_ >? -1).
  - now rewrite (alter_unpopulated
                   (fun it => setPriceAtAdd (priceAtAdd g)
                                (setQuantity (quantity it + quantity g) it)))
      by reflexivity.
  - now rewrite List.map_app.
Qed.

Lemma mergeWith_unpopulated (otherCart c : Cart) :
  InMemory.mergeWith otherCart (unpopulated c)
  = Done (unpopulated (mergeWith (Some otherCart) c)).
Proof.
  unfold InMemory.mergeWith, mergeWith. cbn [lines header unpopulated].
  assert (H : forall acc,
            foldE InMemory.mergeItem (items otherCart)
                  (map (fun it => mkLine it Unpopulated) acc)
            = Done (map (fun it => mkLine it Unpopulated)
                        (fold_left mergeItem (items otherCart) acc))).
  { induction (items otherCart) as [|g r IH]; intros acc; cbn [foldE fold_left];
      [reflexivity|].
    rewrite mergeItem_unpopulated. cbn [bindE]. apply IH. }
  rewrite H. cbn [bindE]. unfold InMemory.setCoupon. cbn [lines header].
  now rewrite unpopulated_calculateFinalTotal.
Qed.

Lemma calculateDiscount_unpopulated (cp : Coupon) (now : Z) (c : Cart) :
  InMemory.calculateDiscount cp now (lines (unpopulated c))
  = Done (calculateDiscount cp now (items c)).
Proof.
  unfold InMemory.calculateDiscount, calculateDiscount. cbn [lines unpopulated].
  destruct (negb (isValid cp now)); [reflexivity|].
  assert (H : forall acc,
            foldE (InMemory.discountStep (c_applicableProducts cp))
                  (map (fun it => mkLine it Unpopulated) (items c)) acc
            = Done (fold_left (discountStep (c_applicableProducts cp)) (items c) acc)).
  { induction (items c) as [|x r IH]; intros acc; [reflexivity|].
    cbn [map foldE fold_left]. unfold InMemory.discountStep at 1, refIncluded.
    cbn [line_ref line_item bindE]. rewrite IH. reflexivity. }
  rewrite H. cbn [bindE]. now destruct (_ =? 0).
Qed.

Lemma isApplicableToProducts_unpopulated (cp : Coupon) (c : Cart) :
  InMemory.isApplicableToProducts cp (lines (unpopulated c))
  = Done (isApplicableToProducts cp (map productId (items c))).
Proof.
  unfold InMemory.isApplicableToProducts, isApplicableToProducts.
  cbn [lines unpopulated].
  rewrite (someE_unpopulated _ (fun it => includes (c_applicableProducts cp) (productId it)))
    by reflexivity.
  f_equal. induction (items c) as [|x r IH]; [reflexivity|]. cbn [map existsb].
  now rewrite IH.
Qed.
